(** * The QUIC echo server page controller (src/quic.ts)

    A shallow embedding of the page script that boots the embedded QUIC
    echo server module and mirrors its lifecycle in the page: the
    environment checks, the log pane, the status pill, the connection
    counter with its badge, and the callbacks handed to the Emscripten
    module.

    Conventions of the embedding.
    - A JavaScript string is a [string] holding its UTF-8 bytes.  Every
      regular expression of the script is made of ASCII literals, and under
      the [i] flag (without [u]) JavaScript never identifies a non-ASCII
      character with an ASCII one, so matching on bytes agrees with matching
      on UTF-16 code units.
    - The two counters are JavaScript numbers that only ever hold integers;
      they are integers of [Z] here (number arithmetic is exact on integers
      below 2^53).
    - The DOM and the browser objects the script writes to are the fields of
      one record, [Page]; a handler is a function [Page -> Page].  Requests
      sent outside the page ([setAppBadge], [clearAppBadge], [window.open],
      appended script elements) are recorded in call order.
    - The timestamp span of a log line holds wall-clock text and is left out
      of [log_line]; so is the scroll position of the log pane.
      [showCertHash] only fills the certificate card, which nothing else
      reads or writes, and is left out too. *)

From Stdlib Require Import ZArith String Ascii List Bool Lia DecimalString.
Import ListNotations.
Open Scope string_scope.
Open Scope Z_scope.

(** ** Regular expressions of the script

    Each regular expression literal of the script is an alternation of
    literal runs of characters, a run being free, anchored at the start of
    the input ([^]) or at its end ([$]); no literal has the [m] or [g]
    flag. *)
Module Regex.

Definition is_lower (c : ascii) : bool :=
  let n := nat_of_ascii c in ((97 <=? n) && (n <=? 122))%nat.

Definition to_upper (c : ascii) : ascii :=
  if is_lower c then ascii_of_nat (nat_of_ascii c - 32) else c.

(** Canonicalize of the ECMAScript pattern semantics, on bytes. *)
Definition canonicalize (ignoreCase : bool) (c : ascii) : ascii :=
  if ignoreCase then to_upper c else c.

Definition char_eq (i : bool) (a b : ascii) : bool :=
  Ascii.eqb (canonicalize i a) (canonicalize i b).

(** [p] matches a prefix of [s]. *)
Fixpoint match_here (i : bool) (p s : string) : bool :=
  match p, s with
  | EmptyString, _ => true
  | String a p', String b s' => char_eq i a b && match_here i p' s'
  | String _ _, EmptyString => false
  end.

(** [p] matches the whole of [s]. *)
Fixpoint match_to_end (i : bool) (p s : string) : bool :=
  match p, s with
  | EmptyString, EmptyString => true
  | String a p', String b s' => char_eq i a b && match_to_end i p' s'
  | _, _ => false
  end.

(** Some suffix of [s] satisfies [f]: the search over start positions. *)
Fixpoint anywhere (f : string -> bool) (s : string) : bool :=
  f s || match s with
         | EmptyString => false
         | String _ s' => anywhere f s'
         end.

Inductive alternative : Type :=
| Lit (p : string)       (* p  *)
| Caret (p : string)     (* ^p *)
| Dollar (p : string).   (* p$ *)

Record t : Type := mk { alternatives : list alternative; ignoreCase : bool }.

Definition alt_test (i : bool) (a : alternative) (s : string) : bool :=
  match a with
  | Lit p => anywhere (match_here i p) s
  | Caret p => match_here i p s
  | Dollar p => anywhere (match_to_end i p) s
  end.

(** [RegExp.prototype.test]. *)
Definition test (r : t) (s : string) : bool :=
  existsb (fun a => alt_test (ignoreCase r) a s) (alternatives r).

Fixpoint fold_case (i : bool) (s : string) : string :=
  match s with
  | EmptyString => EmptyString
  | String c s' => String (canonicalize i c) (fold_case i s')
  end.

End Regex.

(** [String(n)] for an integer number. *)
Definition String_of (n : Z) : string := NilZero.string_of_int (Z.to_int n).

(** ** The regular expression literals, in source order *)

(* /FATAL:|error/i *)
Definition re_log_err : Regex.t :=
  Regex.mk [Regex.Lit "FATAL:"; Regex.Lit "error"] true.

(* /OK$|loaded|configured|completed|Listening|available/i *)
Definition re_log_ok : Regex.t :=
  Regex.mk [Regex.Dollar "OK"; Regex.Lit "loaded"; Regex.Lit "configured";
            Regex.Lit "completed"; Regex.Lit "Listening"; Regex.Lit "available"] true.

(* /warn|requires|not available/i *)
Definition re_log_warn : Regex.t :=
  Regex.mk [Regex.Lit "warn"; Regex.Lit "requires"; Regex.Lit "not available"] true.

(* /new QUIC connection|handshake completed|connection established/i *)
Definition re_established : Regex.t :=
  Regex.mk [Regex.Lit "new QUIC connection"; Regex.Lit "handshake completed";
            Regex.Lit "connection established"] true.

(* /connection closed|connection timeout|draining/i *)
Definition re_closed : Regex.t :=
  Regex.mk [Regex.Lit "connection closed"; Regex.Lit "connection timeout";
            Regex.Lit "draining"] true.

(* /Listening|Waiting for QUIC/ *)
Definition re_listening : Regex.t :=
  Regex.mk [Regex.Lit "Listening"; Regex.Lit "Waiting for QUIC"] false.

(* /^FATAL:/ *)
Definition re_fatal : Regex.t :=
  Regex.mk [Regex.Caret "FATAL:"] false.

(** ** The page *)

(** A line of the log pane: [className] of the line and its text node. *)
Record log_line : Type := mkLine { line_className : string; line_text : string }.

(** A card of the environment grid, as [createEnvCard] builds it. *)
Record env_card : Type := mkEnvCard {
  card_icon_src : string;
  card_label : string;
  card_value : string;
  card_value_className : string
}.

(** An item of the capability grid, as [createCapItem] builds it. *)
Record cap_item : Type := mkCapItem { item_className : string; item_name : string }.

(** A script element appended to the body and what became of its fetch. *)
Inductive script_status : Type := Fetching | Loaded | Failed.
Record script : Type := mkScript { script_src : string; script_status_of : script_status }.

(** A call on the Badging API. *)
Inductive badge_call : Type :=
| setAppBadge (count : Z)
| clearAppBadge.

Record Page : Type := mkPage {
  logEl : list log_line;                (* children of #log, in document order *)
  logCountEl : string;                  (* textContent of #log-count *)
  lineCount : Z;                        (* let lineCount *)
  connectionCount : Z;                  (* let connectionCount *)
  statusTextEl : string;                (* textContent of #status-text *)
  statusEl : string;                    (* className of #status *)
  btnStart_disabled : bool;             (* btnStart.disabled *)
  loadingOverlay_active : bool;         (* 'active' in the class list of #loading-overlay *)
  logContainer_glow : bool;             (* 'active-glow' in the class list of .log-container *)
  badgeCountEl : string;                (* textContent of #badge-count *)
  badgeDisplay : string;                (* style.display of #badge-display *)
  envGrid : list env_card;              (* children of #env-grid *)
  capsGrid : list cap_item;             (* children of #caps-grid *)
  Module_installed : bool;              (* window.Module has been assigned *)
  body_scripts : list script;           (* script elements appended to the body *)
  appBadge_calls : list badge_call;     (* calls made on navigator's badge methods *)
  window_opens : list string            (* URLs passed to window.open *)
}.

(** Assignment to one field; the other fields are kept. *)
Definition set_logEl (v : list log_line) (p : Page) : Page :=
  mkPage v (logCountEl p) (lineCount p) (connectionCount p) (statusTextEl p)
    (statusEl p) (btnStart_disabled p) (loadingOverlay_active p)
    (logContainer_glow p) (badgeCountEl p) (badgeDisplay p) (envGrid p)
    (capsGrid p) (Module_installed p) (body_scripts p) (appBadge_calls p)
    (window_opens p).

Definition set_logCountEl (v : string) (p : Page) : Page :=
  mkPage (logEl p) v (lineCount p) (connectionCount p) (statusTextEl p)
    (statusEl p) (btnStart_disabled p) (loadingOverlay_active p)
    (logContainer_glow p) (badgeCountEl p) (badgeDisplay p) (envGrid p)
    (capsGrid p) (Module_installed p) (body_scripts p) (appBadge_calls p)
    (window_opens p).

Definition set_lineCount (v : Z) (p : Page) : Page :=
  mkPage (logEl p) (logCountEl p) v (connectionCount p) (statusTextEl p)
    (statusEl p) (btnStart_disabled p) (loadingOverlay_active p)
    (logContainer_glow p) (badgeCountEl p) (badgeDisplay p) (envGrid p)
    (capsGrid p) (Module_installed p) (body_scripts p) (appBadge_calls p)
    (window_opens p).

Definition set_connectionCount (v : Z) (p : Page) : Page :=
  mkPage (logEl p) (logCountEl p) (lineCount p) v (statusTextEl p) (statusEl
    p) (btnStart_disabled p) (loadingOverlay_active p) (logContainer_glow p)
    (badgeCountEl p) (badgeDisplay p) (envGrid p) (capsGrid p)
    (Module_installed p) (body_scripts p) (appBadge_calls p) (window_opens
    p).

Definition set_statusTextEl (v : string) (p : Page) : Page :=
  mkPage (logEl p) (logCountEl p) (lineCount p) (connectionCount p) v
    (statusEl p) (btnStart_disabled p) (loadingOverlay_active p)
    (logContainer_glow p) (badgeCountEl p) (badgeDisplay p) (envGrid p)
    (capsGrid p) (Module_installed p) (body_scripts p) (appBadge_calls p)
    (window_opens p).

Definition set_statusEl (v : string) (p : Page) : Page :=
  mkPage (logEl p) (logCountEl p) (lineCount p) (connectionCount p)
    (statusTextEl p) v (btnStart_disabled p) (loadingOverlay_active p)
    (logContainer_glow p) (badgeCountEl p) (badgeDisplay p) (envGrid p)
    (capsGrid p) (Module_installed p) (body_scripts p) (appBadge_calls p)
    (window_opens p).

Definition set_btnStart_disabled (v : bool) (p : Page) : Page :=
  mkPage (logEl p) (logCountEl p) (lineCount p) (connectionCount p)
    (statusTextEl p) (statusEl p) v (loadingOverlay_active p)
    (logContainer_glow p) (badgeCountEl p) (badgeDisplay p) (envGrid p)
    (capsGrid p) (Module_installed p) (body_scripts p) (appBadge_calls p)
    (window_opens p).

Definition set_loadingOverlay_active (v : bool) (p : Page) : Page :=
  mkPage (logEl p) (logCountEl p) (lineCount p) (connectionCount p)
    (statusTextEl p) (statusEl p) (btnStart_disabled p) v (logContainer_glow
    p) (badgeCountEl p) (badgeDisplay p) (envGrid p) (capsGrid p)
    (Module_installed p) (body_scripts p) (appBadge_calls p) (window_opens
    p).

Definition set_logContainer_glow (v : bool) (p : Page) : Page :=
  mkPage (logEl p) (logCountEl p) (lineCount p) (connectionCount p)
    (statusTextEl p) (statusEl p) (btnStart_disabled p)
    (loadingOverlay_active p) v (badgeCountEl p) (badgeDisplay p) (envGrid
    p) (capsGrid p) (Module_installed p) (body_scripts p) (appBadge_calls p)
    (window_opens p).

Definition set_badgeCountEl (v : string) (p : Page) : Page :=
  mkPage (logEl p) (logCountEl p) (lineCount p) (connectionCount p)
    (statusTextEl p) (statusEl p) (btnStart_disabled p)
    (loadingOverlay_active p) (logContainer_glow p) v (badgeDisplay p)
    (envGrid p) (capsGrid p) (Module_installed p) (body_scripts p)
    (appBadge_calls p) (window_opens p).

Definition set_badgeDisplay (v : string) (p : Page) : Page :=
  mkPage (logEl p) (logCountEl p) (lineCount p) (connectionCount p)
    (statusTextEl p) (statusEl p) (btnStart_disabled p)
    (loadingOverlay_active p) (logContainer_glow p) (badgeCountEl p) v
    (envGrid p) (capsGrid p) (Module_installed p) (body_scripts p)
    (appBadge_calls p) (window_opens p).

Definition set_envGrid (v : list env_card) (p : Page) : Page :=
  mkPage (logEl p) (logCountEl p) (lineCount p) (connectionCount p)
    (statusTextEl p) (statusEl p) (btnStart_disabled p)
    (loadingOverlay_active p) (logContainer_glow p) (badgeCountEl p)
    (badgeDisplay p) v (capsGrid p) (Module_installed p) (body_scripts p)
    (appBadge_calls p) (window_opens p).

Definition set_capsGrid (v : list cap_item) (p : Page) : Page :=
  mkPage (logEl p) (logCountEl p) (lineCount p) (connectionCount p)
    (statusTextEl p) (statusEl p) (btnStart_disabled p)
    (loadingOverlay_active p) (logContainer_glow p) (badgeCountEl p)
    (badgeDisplay p) (envGrid p) v (Module_installed p) (body_scripts p)
    (appBadge_calls p) (window_opens p).

Definition set_Module_installed (v : bool) (p : Page) : Page :=
  mkPage (logEl p) (logCountEl p) (lineCount p) (connectionCount p)
    (statusTextEl p) (statusEl p) (btnStart_disabled p)
    (loadingOverlay_active p) (logContainer_glow p) (badgeCountEl p)
    (badgeDisplay p) (envGrid p) (capsGrid p) v (body_scripts p)
    (appBadge_calls p) (window_opens p).

Definition set_body_scripts (v : list script) (p : Page) : Page :=
  mkPage (logEl p) (logCountEl p) (lineCount p) (connectionCount p)
    (statusTextEl p) (statusEl p) (btnStart_disabled p)
    (loadingOverlay_active p) (logContainer_glow p) (badgeCountEl p)
    (badgeDisplay p) (envGrid p) (capsGrid p) (Module_installed p) v
    (appBadge_calls p) (window_opens p).

Definition set_appBadge_calls (v : list badge_call) (p : Page) : Page :=
  mkPage (logEl p) (logCountEl p) (lineCount p) (connectionCount p)
    (statusTextEl p) (statusEl p) (btnStart_disabled p)
    (loadingOverlay_active p) (logContainer_glow p) (badgeCountEl p)
    (badgeDisplay p) (envGrid p) (capsGrid p) (Module_installed p)
    (body_scripts p) v (window_opens p).

Definition set_window_opens (v : list string) (p : Page) : Page :=
  mkPage (logEl p) (logCountEl p) (lineCount p) (connectionCount p)
    (statusTextEl p) (statusEl p) (btnStart_disabled p)
    (loadingOverlay_active p) (logContainer_glow p) (badgeCountEl p)
    (badgeDisplay p) (envGrid p) (capsGrid p) (Module_installed p)
    (body_scripts p) (appBadge_calls p) v.
(** ** The host environment

    What the script reads from the browser, once, when it is loaded: one
    boolean per probe of [checkEnvironment] and [detectCapabilities]. *)
Record Host : Type := mkHost {
  has_SharedArrayBuffer : bool;    (* typeof SharedArrayBuffer !== 'undefined' *)
  is_crossOriginIsolated : bool;   (* typeof crossOriginIsolated !== 'undefined' && crossOriginIsolated *)
  has_TCPSocket : bool;            (* typeof g.TCPSocket !== 'undefined' *)
  has_UDPSocket : bool;            (* typeof g.UDPSocket !== 'undefined' *)
  has_TCPServerSocket : bool;      (* typeof g.TCPServerSocket !== 'undefined' *)
  has_setAppBadge : bool;          (* 'setAppBadge' in navigator *)
  has_wakeLock : bool;             (* 'wakeLock' in navigator *)
  has_IdleDetector : bool;
  has_showOpenFilePicker : bool;
  has_clipboard_write : bool;
  has_EyeDropper : bool;
  has_queryLocalFonts : bool;
  has_bluetooth : bool;
  has_usb : bool;
  has_hid : bool;
  has_serial : bool;
  has_startViewTransition : bool;
  has_togglePopover : bool;
  has_navigation : bool;
  has_getScreenDetails : bool;
  has_Notification : bool;
  has_share : bool
}.

(** The elements of quic.html the script looks up, as the markup leaves
    them.  The markup is not part of the script: it is a parameter of the
    page load.  Every element the script looks up is taken to exist. *)
Record Markup : Type := mkMarkup {
  m_log : list log_line;
  m_logCount : string;
  m_statusText : string;
  m_statusClass : string;
  m_btnStart_disabled : bool;
  m_loadingOverlay_active : bool;
  m_logContainer_glow : bool;
  m_badgeCount : string;
  m_badgeDisplay : string;
  m_envGrid : list env_card;
  m_capsGrid : list cap_item
}.

(** The page when the script starts to run: the two [let] initialisers of
    the script, nothing requested from the browser yet. *)
Definition document_of (m : Markup) : Page :=
  {| logEl := m_log m;
     logCountEl := m_logCount m;
     lineCount := 0;
     connectionCount := 0;
     statusTextEl := m_statusText m;
     statusEl := m_statusClass m;
     btnStart_disabled := m_btnStart_disabled m;
     loadingOverlay_active := m_loadingOverlay_active m;
     logContainer_glow := m_logContainer_glow m;
     badgeCountEl := m_badgeCount m;
     badgeDisplay := m_badgeDisplay m;
     envGrid := m_envGrid m;
     capsGrid := m_capsGrid m;
     Module_installed := false;
     body_scripts := [];
     appBadge_calls := [];
     window_opens := [] |}.

(** ** Functions of the script that do not read the host *)

Definition setStatus (text cls : string) (p : Page) : Page :=
  let p := set_statusTextEl text p in
  set_statusEl ("status-pill " ++ cls) p.

(** The pattern cascade of [log], taken when no class is passed. *)
Definition severity_class (msg : string) : string :=
  if Regex.test re_log_err msg then "log-err"
  else if Regex.test re_log_ok msg then "log-ok"
  else if Regex.test re_log_warn msg then "log-warn"
  else "log-info".

(** [!cls] for an optional string: [undefined] and the empty string. *)
Definition not_cls (cls : option string) : bool :=
  match cls with
  | None => true
  | Some c => String.eqb c ""
  end.

Definition log (msg : string) (cls : option string) (p : Page) : Page :=
  let cls := if not_cls cls then severity_class msg
             else match cls with Some c => c | None => "" end in
  let p := set_logEl (logEl p ++ [mkLine ("log-line " ++ cls) msg]) p in
  let p := set_lineCount (lineCount p + 1) p in
  set_logCountEl
    (String_of (lineCount p) ++ " line" ++ (if negb (lineCount p =? 1) then "s" else ""))
    p.

Definition clearLog (p : Page) : Page :=
  let p := set_logEl [] p in
  let p := set_lineCount 0 p in
  set_logCountEl "0 lines" p.

Definition createEnvCard (iconName label value cls : string) : env_card :=
  {| card_icon_src := "/icons/" ++ iconName ++ ".svg";
     card_label := label;
     card_value := value;
     card_value_className := "env-card-value " ++ cls |}.

Definition createCapItem (name : string) (ok : bool) : cap_item :=
  {| item_className := "cap-item " ++ (if ok then "ok" else "off");
     item_name := name |}.

Definition envIcons : list (string * string) :=
  [("SharedArrayBuffer", "high-voltage");
   ("Cross-Origin Isolated", "guard-1");
   ("Direct Sockets", "electric-plug");
   ("Badging API", "bell")].

(** [envIcons[label] || 'sparkles']. *)
Definition envIcon (label : string) : string :=
  match find (fun kv => String.eqb (fst kv) label) envIcons with
  | Some kv => snd kv
  | None => "sparkles"
  end.

(** [Module.locateFile]. *)
Definition locateFile (path : string) : string := path.

(** [Module.print]: the standard channel of the module. *)
Definition print (text : string) (p : Page) : Page := log text None p.

(** [Module.onAbort]. *)
Definition onAbort (what : string) (p : Page) : Page :=
  let p := log ("Module aborted: " ++ what) (Some "log-err") p in
  let p := setStatus "aborted" "status-error" p in
  set_loadingOverlay_active false p.

(** [script.onload] and [script.onerror] of the element [startServer]
    appends. *)
Definition script_onload (p : Page) : Page :=
  log "Emscripten JS loaded, spawning worker..." None p.

Definition script_onerror (p : Page) : Page :=
  let p := log "Failed to load quic_echo_server.js" (Some "log-err") p in
  let p := setStatus "load failed" "status-error" p in
  let p := set_loadingOverlay_active false p in
  set_btnStart_disabled false p.

(** ** Functions of the script that read the host *)

Section Controller.

Variable host : Host.

(* const badgingSupported = 'setAppBadge' in navigator; *)
Definition badgingSupported : bool := has_setAppBadge host.

(** [updateBadge].  The function is [async]: it runs to its [await] within
    the caller's turn, so the three assignments and the call on the
    Badging API happen before the caller goes on; nothing follows the
    [await], and a rejection is caught and dropped. *)
Definition updateBadge (count : Z) (p : Page) : Page :=
  let p := set_connectionCount count p in
  let p := set_badgeCountEl (String_of count) p in
  let p := set_badgeDisplay (if count >? 0 then "inline-flex" else "none") p in
  if badgingSupported then
    set_appBadge_calls
      (appBadge_calls p ++ [if count >? 0 then setAppBadge count else clearAppBadge]) p
  else p.

(** The four blocks of [Module.printErr] that follow its call of [log],
    each guarded by its own pattern test. *)
Definition printErr_established (p : Page) : Page :=
  let p := updateBadge (connectionCount p + 1) p in
  let p := log ("Connection #" ++ String_of (connectionCount p) ++ " — badge updated")
               (Some "log-ok") p in
  set_window_opens
    (window_opens p ++ ["/quic.html?conn=" ++ String_of (connectionCount p)]) p.

Definition printErr_closed (p : Page) : Page :=
  updateBadge (Z.max 0 (connectionCount p - 1)) p.

Definition printErr_listening (p : Page) : Page :=
  let p := setStatus "running — port 4433" "status-running" p in
  let p := set_loadingOverlay_active false p in
  set_logContainer_glow true p.

Definition printErr_fatal (p : Page) : Page :=
  let p := setStatus "error" "status-error" p in
  set_loadingOverlay_active false p.

(** [Module.printErr]: the diagnostic channel of the module. *)
Definition printErr (text : string) (p : Page) : Page :=
  let p := log text None p in
  let p := if Regex.test re_established text then printErr_established p else p in
  let p := if Regex.test re_closed text then printErr_closed p else p in
  let p := if Regex.test re_listening text then printErr_listening p else p in
  if Regex.test re_fatal text then printErr_fatal p else p.

(** [startServer]. *)
Definition startServer (p : Page) : Page :=
  let p := set_btnStart_disabled true p in
  let p := setStatus "loading..." "status-loading" p in
  let p := set_loadingOverlay_active true p in
  let p := log "Loading QUIC echo server..." None p in
  let p := set_Module_installed true p in
  set_body_scripts (body_scripts p ++ [mkScript "quic_echo_server.js" Fetching]) p.

(** The rows of [checks] in [checkEnvironment]: label, value, class. *)
Definition checks : list (string * string * string) :=
  [ ("SharedArrayBuffer",
     if has_SharedArrayBuffer host then "available" else "missing",
     if has_SharedArrayBuffer host then "ok" else "err");
    ("Cross-Origin Isolated",
     if is_crossOriginIsolated host then "yes" else "no",
     if is_crossOriginIsolated host then "ok" else "warn");
    ("Direct Sockets",
     if has_TCPSocket host || has_UDPSocket host then "available" else "unavailable",
     if has_TCPSocket host || has_UDPSocket host then "ok" else "warn");
    ("Badging API",
     if badgingSupported then "available" else "unavailable",
     if badgingSupported then "ok" else "warn") ].

Definition checkEnvironment (p : Page) : Page :=
  let p :=
    fold_left
      (fun p c =>
         let '(label, value, cls) := c in
         let p := set_envGrid (envGrid p ++ [createEnvCard (envIcon label) label value cls]) p in
         log (label ++ ": " ++ value) None p)
      checks p in
  if negb (has_SharedArrayBuffer host) then
    let p := log "Need COOP/COEP headers or IWA context for SharedArrayBuffer"
                 (Some "log-err") p in
    let p := setStatus "missing SharedArrayBuffer" "status-error" p in
    set_btnStart_disabled true p
  else
    log "Ready to start." (Some "log-ok") p.

(** The rows of [caps] in [detectCapabilities]. *)
Definition caps : list (string * bool) :=
  [ ("UDPSocket", has_UDPSocket host);
    ("TCPSocket", has_TCPSocket host);
    ("TCPServerSocket", has_TCPServerSocket host);
    ("App Badge", has_setAppBadge host);
    ("Wake Lock", has_wakeLock host);
    ("Idle Detection", has_IdleDetector host);
    ("File System", has_showOpenFilePicker host);
    ("Clipboard", has_clipboard_write host);
    ("EyeDropper", has_EyeDropper host);
    ("Local Fonts", has_queryLocalFonts host);
    ("Web Bluetooth", has_bluetooth host);
    ("Web USB", has_usb host);
    ("Web HID", has_hid host);
    ("Web Serial", has_serial host);
    ("View Transitions", has_startViewTransition host);
    ("Popover", has_togglePopover host);
    ("Navigation API", has_navigation host);
    ("Screen Details", has_getScreenDetails host);
    ("Notifications", has_Notification host);
    ("Web Share", has_share host) ].

Definition detectCapabilities (p : Page) : Page :=
  let '(okCount, p) :=
    fold_left
      (fun (acc : Z * Page) (c : string * bool) =>
         let '(okCount, p) := acc in
         let okCount := if snd c then okCount + 1 else okCount in
         (okCount, set_capsGrid (capsGrid p ++ [createCapItem (fst c) (snd c)]) p))
      caps (0, p) in
  log ("IWA capabilities: " ++ String_of okCount ++ "/"
         ++ String_of (Z.of_nat (length caps)) ++ " APIs detected")
      (Some "log-ok") p.

(** The listener of [beforeunload]. *)
Definition beforeunload (p : Page) : Page :=
  if badgingSupported
  then set_appBadge_calls (appBadge_calls p ++ [clearAppBadge]) p
  else p.

(** The script run from top to bottom over the parsed markup. *)
Definition page_load (m : Markup) : Page :=
  detectCapabilities (checkEnvironment (document_of m)).

(** ** Events

    After the page load the script only runs when the browser calls one
    of the listeners it registered. *)
Inductive event : Type :=
| Click_btnStart                      (* btnStart 'click' *)
| Click_btnClear                      (* btnClear 'click' *)
| Script_load                         (* 'load' of an appended script *)
| Script_error                        (* 'error' of an appended script *)
| Module_print (text : string)
| Module_printErr (text : string)
| Module_onAbort (what : string)
| Window_beforeunload.

(** The listener the script wired to an event. *)
Definition listener (e : event) : Page -> Page :=
  match e with
  | Click_btnStart => startServer
  | Click_btnClear => clearLog
  | Script_load => script_onload
  | Script_error => script_onerror
  | Module_print text => print text
  | Module_printErr text => printErr text
  | Module_onAbort what => onAbort what
  | Window_beforeunload => beforeunload
  end.

Definition is_fetching (s : script) : bool :=
  match script_status_of s with Fetching => true | _ => false end.

(** The first script still being fetched gets its outcome. *)
Fixpoint settle (st : script_status) (l : list script) : list script :=
  match l with
  | [] => []
  | s :: l' =>
      if is_fetching s then mkScript (script_src s) st :: l' else s :: settle st l'
  end.

(** What the browser can deliver in a page: no click is dispatched on a
    disabled button; a script element fires [load] or [error] once, when
    its fetch ends; the callbacks of [window.Module] are called by the
    module script, which is only ever fetched once [startServer] has
    assigned [window.Module] and appended the element. *)
Definition deliverable (e : event) (p : Page) : bool :=
  match e with
  | Click_btnStart => negb (btnStart_disabled p)
  | Click_btnClear => true
  | Script_load | Script_error => existsb is_fetching (body_scripts p)
  | Module_print _ | Module_printErr _ | Module_onAbort _ =>
      Module_installed p
  | Window_beforeunload => true
  end.

(** What the browser itself records when it delivers the event. *)
Definition browser (e : event) (p : Page) : Page :=
  match e with
  | Script_load => set_body_scripts (settle Loaded (body_scripts p)) p
  | Script_error => set_body_scripts (settle Failed (body_scripts p)) p
  | _ => p
  end.

(** One turn of the event loop: an event that cannot be delivered runs
    nothing. *)
Definition step (p : Page) (e : event) : Page :=
  if deliverable e p then listener e (browser e p) else p.

Definition run (es : list event) (p : Page) : Page := fold_left step es p.

End Controller.

(** ** Sample inputs

    A markup whose elements start empty with the start button enabled, a
    host where every probe succeeds, the same host without
    [SharedArrayBuffer], and the same host without the Badging API. *)
Definition sample_markup : Markup :=
  {| m_log := [];
     m_logCount := "0 lines";
     m_statusText := "idle";
     m_statusClass := "status-pill";
     m_btnStart_disabled := false;
     m_loadingOverlay_active := false;
     m_logContainer_glow := false;
     m_badgeCount := "0";
     m_badgeDisplay := "none";
     m_envGrid := [];
     m_capsGrid := [] |}.

Definition full_host : Host :=
  mkHost true true true true true true true true true true true
         true true true true true true true true true true true.

Definition host_without_SharedArrayBuffer : Host :=
  mkHost false true true true true true true true true true true
         true true true true true true true true true true true.

Definition host_without_badging : Host :=
  mkHost true true true true true false true true true true true
         true true true true true true true true true true true.

(** ** Views used by the statements *)

(** The two text channels of the module, and a line handed to the callback
    of its channel. *)
Inductive channel : Type := Standard | Diagnostic.

Definition deliver (host : Host) (p : Page) (l : channel * string) : Page :=
  match fst l with
  | Standard => print (snd l) p
  | Diagnostic => printErr host (snd l) p
  end.

(** The log line of a text logged without a class, and the line the
    connection block of [Module.printErr] logs for connection [n]. *)
Definition own_line (text : string) : log_line :=
  mkLine ("log-line " ++ severity_class text) text.

Definition connection_line (n : Z) : log_line :=
  mkLine "log-line log-ok" ("Connection #" ++ String_of n ++ " — badge updated").

(** The lines [log] appends while a line of the module is processed, read
    off [Module.print] and [Module.printErr]: the line itself, then the
    connection line when the diagnostic channel announces a connection
    ([count] is the connection counter before the line). *)
Definition emitted (count : Z) (l : channel * string) : list log_line :=
  own_line (snd l)
    :: match fst l with
       | Standard => []
       | Diagnostic =>
           if Regex.test re_established (snd l) then [connection_line (count + 1)] else []
       end.

Fixpoint emitted_all (host : Host) (p : Page) (ls : list (channel * string)) : list log_line :=
  match ls with
  | [] => []
  | l :: ls' => emitted (connectionCount p) l ++ emitted_all host (deliver host p l) ls'
  end.

(** The severity rules written as an ordered table with a first-match
    lookup: a second definition, to compare the cascade of [log] with. *)
Definition severity_rules : list (Regex.t * string) :=
  [(re_log_err, "log-err"); (re_log_ok, "log-ok"); (re_log_warn, "log-warn")].

Definition first_match (rules : list (Regex.t * string)) (default msg : string) : string :=
  match find (fun r => Regex.test (fst r) msg) rules with
  | Some r => snd r
  | None => default
  end.

(** The badge of the page is shown unless its [display] is ['none']. *)
Definition badge_visible (p : Page) : bool :=
  negb (String.eqb (badgeDisplay p) "none").

(** The call [updateBadge] makes on the Badging API, if it makes one. *)
Definition badge_request (host : Host) (count : Z) : list badge_call :=
  if badgingSupported host
  then [if count >? 0 then setAppBadge count else clearAppBadge]
  else [].

(** The connection counter after a diagnostic line, from the counter
    before it. *)
Definition count_after_established (text : string) (c : Z) : Z :=
  if Regex.test re_established text then c + 1 else c.

Definition count_after_line (text : string) (c : Z) : Z :=
  let c := count_after_established text c in
  if Regex.test re_closed text then Z.max 0 (c - 1) else c.

(** The start button is disabled, [window.Module] was never assigned and no
    script element was appended. *)
Definition gated (p : Page) : Prop :=
  btnStart_disabled p = true /\ Module_installed p = false /\ body_scripts p = [].

(** ** Views used by the further properties *)


Definition is_loaded (s : script) : bool :=
  match script_status_of s with Loaded => true | _ => false end.

(** Appended scripts whose fetch is under way or has succeeded. *)
Definition fetching_or_loaded (l : list script) : nat :=
  (length (filter is_fetching l) + length (filter is_loaded l))%nat.

(** The call [updateBadge] makes for a count on a host with the Badging
    API, and what the external badge holds after the calls made so far (it
    is clear when the page starts). *)
Definition badge_for (count : Z) : badge_call :=
  if count >? 0 then setAppBadge count else clearAppBadge.

Definition external_badge (p : Page) : badge_call :=
  last (appBadge_calls p) clearAppBadge.

Definition positive_call (c : badge_call) : Prop :=
  match c with
  | setAppBadge n => 0 < n
  | clearAppBadge => True
  end.

(** The URL [Module.printErr] opens for the counter value [n]. *)
Definition conn_url (n : Z) : string := "/quic.html?conn=" ++ String_of n.

(** The page badge either still is as the markup left it, with the counter
    at 0, or shows the counter. *)
Definition page_badge_synced (m : Markup) (p : Page) : Prop :=
  (connectionCount p = 0 /\
   badgeCountEl p = m_badgeCount m /\ badgeDisplay p = m_badgeDisplay m) \/
  (badgeCountEl p = String_of (connectionCount p) /\
   badgeDisplay p = (if connectionCount p >? 0 then "inline-flex" else "none")).

(** The line counter counts the children of the log pane, and the counter
    text is the one [log] writes for the counter. *)
Definition counts_log_lines (p : Page) : Prop :=
  lineCount p = Z.of_nat (length (logEl p)).


(** An item of the capability grid shown as detected. *)
Definition item_ok (i : cap_item) : bool :=
  String.eqb (item_className i) "cap-item ok".

(** At most one appended script is being fetched or has loaded, and none
    while the start button is enabled. *)
Definition one_load_at_most (p : Page) : Prop :=
  (fetching_or_loaded (body_scripts p) <= 1)%nat /\
  (btnStart_disabled p = false -> fetching_or_loaded (body_scripts p) = 0%nat).

(** A URL of a connection view, for a connection number from 1 on. *)
Definition is_conn_url (u : string) : Prop := exists n, 0 < n /\ u = conn_url n.

(** The counter is not negative and not above the number of views opened,
    and every view opened is a connection view. *)
Definition views_cover_connections (p : Page) : Prop :=
  0 <= connectionCount p <= Z.of_nat (length (window_opens p)) /\
  Forall is_conn_url (window_opens p).

(** The loading overlay is shown only under the loading status. *)
Definition overlay_means_loading (p : Page) : Prop :=
  loadingOverlay_active p = true ->
  statusTextEl p = "loading..." /\ statusEl p = "status-pill status-loading".

(** ** Proof tools *)

Arguments Regex.test : simpl never.
Arguments String_of : simpl never.
Arguments severity_class : simpl never.

(** Projections of assignments, computed. *)
Ltac fields :=
  cbn [logEl logCountEl lineCount connectionCount statusTextEl statusEl
       btnStart_disabled loadingOverlay_active logContainer_glow badgeCountEl
       badgeDisplay envGrid capsGrid Module_installed body_scripts
       appBadge_calls window_opens
       set_logEl set_logCountEl set_lineCount set_connectionCount
       set_statusTextEl set_statusEl set_btnStart_disabled
       set_loadingOverlay_active set_logContainer_glow set_badgeCountEl
       set_badgeDisplay set_envGrid set_capsGrid set_Module_installed
       set_body_scripts set_appBadge_calls set_window_opens
       log setStatus clearLog not_cls orb andb negb].

Ltac tidy_lists := rewrite ?app_nil_r, <- ?app_assoc.

(** ** What the matcher decides *)

Lemma anywhere_spec (f : string -> bool) (s : string) :
  Regex.anywhere f s = true <-> exists a b, s = a ++ b /\ f b = true.
Proof.
  induction s as [|c s IH]; simpl.
  - rewrite orb_false_r. split.
    + intros H. exists "", "". auto.
    + intros (a & b & E & H). destruct a; [|discriminate]. simpl in E. now subst b.
  - rewrite orb_true_iff, IH. split.
    + intros [H | (a & b & E & H)].
      * exists "", (String c s). auto.
      * exists (String c a), b. simpl. now rewrite E.
    + intros (a & b & E & H). destruct a as [|c' a]; simpl in E.
      * left. now subst b.
      * right. injection E as _ E. now exists a, b.
Qed.

Lemma match_here_spec (i : bool) (p s : string) :
  Regex.match_here i p s = true <->
  exists m r, s = m ++ r /\ Regex.fold_case i m = Regex.fold_case i p.
Proof.
  revert s. induction p as [|a p IH]; intros s; simpl.
  - split; [intros _; now exists "", s | reflexivity].
  - destruct s as [|b s].
    + split; [discriminate|].
      intros (m & r & E & F). destruct m; simpl in *; discriminate.
    + unfold Regex.char_eq. rewrite andb_true_iff, Ascii.eqb_eq, IH. split.
      * intros (C & m & r & E & F). exists (String b m), r. simpl.
        now rewrite E, F, C.
      * intros (m & r & E & F). destruct m as [|b' m]; simpl in *; [discriminate|].
        injection E as -> E. injection F as C F. split; [now symmetry|].
        now exists m, r.
Qed.

Lemma match_to_end_spec (i : bool) (p s : string) :
  Regex.match_to_end i p s = true <-> Regex.fold_case i s = Regex.fold_case i p.
Proof.
  revert s. induction p as [|a p IH]; intros [|b s]; simpl;
    try (split; discriminate); try (split; reflexivity).
  unfold Regex.char_eq. rewrite andb_true_iff, Ascii.eqb_eq, IH. split.
  - intros [-> ->]. reflexivity.
  - intros E. injection E as C E. now split.
Qed.

(** A free literal matches when a run equal to it up to case folding occurs
    in the input; [^] pins the run to the start and [$] to the end. *)
Lemma alt_test_Lit (i : bool) (p s : string) :
  Regex.alt_test i (Regex.Lit p) s = true <->
  exists a m b, s = a ++ m ++ b /\ Regex.fold_case i m = Regex.fold_case i p.
Proof.
  simpl. rewrite anywhere_spec. split.
  - intros (a & r & E & H). apply match_here_spec in H as (m & b & E' & F).
    exists a, m, b. now subst.
  - intros (a & m & b & E & F). exists a, (m ++ b). split; [assumption|].
    apply match_here_spec. now exists m, b.
Qed.

Lemma alt_test_Caret (i : bool) (p s : string) :
  Regex.alt_test i (Regex.Caret p) s = true <->
  exists m b, s = m ++ b /\ Regex.fold_case i m = Regex.fold_case i p.
Proof. apply match_here_spec. Qed.

Lemma alt_test_Dollar (i : bool) (p s : string) :
  Regex.alt_test i (Regex.Dollar p) s = true <->
  exists a m, s = a ++ m /\ Regex.fold_case i m = Regex.fold_case i p.
Proof.
  simpl. rewrite anywhere_spec. split.
  - intros (a & m & E & H). exists a, m. now rewrite <- match_to_end_spec.
  - intros (a & m & E & H). exists a, m. now rewrite match_to_end_spec.
Qed.

(** ** The literals on sample lines *)

Example fatal_is_anchored_and_case_sensitive :
  Regex.test re_fatal "FATAL: bind failed" = true /\
  Regex.test re_fatal " FATAL: bind failed" = false /\
  Regex.test re_fatal "fatal: bind failed" = false /\
  Regex.test re_log_err " fatal: bind failed" = true.
Proof. repeat split. Qed.

Example listening_is_case_sensitive :
  Regex.test re_listening "Listening on 0.0.0.0:4433" = true /\
  Regex.test re_listening "listening on 0.0.0.0:4433" = false /\
  Regex.test re_log_ok "listening on 0.0.0.0:4433" = true.
Proof. repeat split. Qed.

Example ok_is_anchored_at_the_end :
  Regex.test re_log_ok "TLS init ok" = true /\
  Regex.test re_log_ok "ok, TLS init" = false.
Proof. repeat split. Qed.

Example severity_class_samples :
  severity_class "FATAL: cert loaded" = "log-err" /\
  severity_class "warning: cert loaded" = "log-ok" /\
  severity_class "Direct Sockets: unavailable" = "log-ok" /\
  severity_class "UDP requires Direct Sockets" = "log-warn" /\
  severity_class "Cross-Origin Isolated: yes" = "log-info".
Proof. repeat split. Qed.

(** A line that announces a connection and a closing runs both blocks, in
    source order: the view is opened for the incremented counter, then the
    counter is decremented again. *)
Example connection_and_closing_on_one_line :
  connectionCount
    (printErr full_host "new QUIC connection closed"
       (startServer (page_load full_host sample_markup))) = 0 /\
  window_opens
    (printErr full_host "new QUIC connection closed"
       (startServer (page_load full_host sample_markup))) = ["/quic.html?conn=1"] /\
  appBadge_calls
    (printErr full_host "new QUIC connection closed"
       (startServer (page_load full_host sample_markup))) = [setAppBadge 1; clearAppBadge].
Proof. repeat split. Qed.

(** ** Normal forms of the handlers *)

Lemma updateBadge_eq (host : Host) (count : Z) (p : Page) :
  updateBadge host count p =
  set_appBadge_calls (appBadge_calls p ++ badge_request host count)
    (set_badgeDisplay (if count >? 0 then "inline-flex" else "none")
       (set_badgeCountEl (String_of count) (set_connectionCount count p))).
Proof.
  unfold updateBadge, badge_request.
  destruct p, (badgingSupported host); cbn; rewrite ?app_nil_r; reflexivity.
Qed.

Lemma printErr_established_eq (host : Host) (p : Page) :
  printErr_established host p =
  set_window_opens
    (window_opens p ++ ["/quic.html?conn=" ++ String_of (connectionCount p + 1)])
    (log ("Connection #" ++ String_of (connectionCount p + 1) ++ " — badge updated")
       (Some "log-ok") (updateBadge host (connectionCount p + 1) p)).
Proof.
  unfold printErr_established. rewrite updateBadge_eq. reflexivity.
Qed.

(** Every field of the page after [Module.printErr], one equation per
    field (the text of the line counter apart). *)
Lemma printErr_fields (host : Host) (text : string) (p : Page) :
  let q := printErr host text p in
  let c := connectionCount p in
  logEl q =
    (logEl p ++ own_line text
       :: (if Regex.test re_established text then [connection_line (c + 1)] else []))%list
  /\ lineCount q = (if Regex.test re_established text
                    then lineCount p + 1 + 1 else lineCount p + 1)
  /\ connectionCount q = count_after_line text c
  /\ statusTextEl q =
       (if Regex.test re_fatal text then "error"
        else if Regex.test re_listening text then "running — port 4433"
        else statusTextEl p)
  /\ statusEl q =
       (if Regex.test re_fatal text then "status-pill status-error"
        else if Regex.test re_listening text then "status-pill status-running"
        else statusEl p)
  /\ btnStart_disabled q = btnStart_disabled p
  /\ loadingOverlay_active q =
       (if Regex.test re_fatal text || Regex.test re_listening text
        then false else loadingOverlay_active p)
  /\ logContainer_glow q =
       (if Regex.test re_listening text then true else logContainer_glow p)
  /\ badgeCountEl q =
       (if Regex.test re_established text || Regex.test re_closed text
        then String_of (count_after_line text c) else badgeCountEl p)
  /\ badgeDisplay q =
       (if Regex.test re_established text || Regex.test re_closed text
        then (if count_after_line text c >? 0 then "inline-flex" else "none")
        else badgeDisplay p)
  /\ envGrid q = envGrid p
  /\ capsGrid q = capsGrid p
  /\ Module_installed q = Module_installed p
  /\ body_scripts q = body_scripts p
  /\ appBadge_calls q =
       (appBadge_calls p
          ++ (if Regex.test re_established text then badge_request host (c + 1) else [])
          ++ (if Regex.test re_closed text
              then badge_request host (Z.max 0 (count_after_established text c - 1))
              else []))%list
  /\ window_opens q =
       (window_opens p
          ++ (if Regex.test re_established text
              then ["/quic.html?conn=" ++ String_of (c + 1)]%string else []))%list.
Proof.
  unfold count_after_line, count_after_established, printErr.
  destruct (Regex.test re_established text), (Regex.test re_closed text),
    (Regex.test re_listening text), (Regex.test re_fatal text);
    cbv zeta;
    unfold printErr_closed; rewrite ?printErr_established_eq, ?updateBadge_eq;
    unfold printErr_listening, printErr_fatal;
    repeat split; fields; tidy_lists; reflexivity.
Qed.

(** ** The start gate *)

Lemma page_load_gated (host : Host) (m : Markup) :
  has_SharedArrayBuffer host = false -> gated (page_load host m).
Proof.
  intros H. unfold gated, page_load, checkEnvironment. rewrite H.
  repeat split.
Qed.

Lemma step_gated (host : Host) (p : Page) (e : event) :
  gated p -> gated (step host p e).
Proof.
  intros (Hb & Hm & Hs). unfold step, deliverable.
  destruct e; rewrite ?Hb, ?Hm, ?Hs; cbn [negb existsb listener browser];
    try (split; [exact Hb | split; [exact Hm | exact Hs]]).
  unfold beforeunload.
  destruct (badgingSupported host); (split; [exact Hb | split; [exact Hm | exact Hs]]).
Qed.

Lemma run_gated (host : Host) (es : list event) (p : Page) :
  gated p -> gated (run host es p).
Proof.
  revert p. induction es as [|e es IH]; intros p G; [exact G|].
  apply IH, step_gated, G.
Qed.

Lemma page_load_btnStart (host : Host) (m : Markup) :
  has_SharedArrayBuffer host = true ->
  btnStart_disabled (page_load host m) = m_btnStart_disabled m.
Proof.
  intros H. unfold page_load, checkEnvironment. rewrite H. reflexivity.
Qed.

(** C1.  When the [SharedArrayBuffer] probe fails, the page load disables
    the start button and, whatever the other probes say and whatever events
    follow, the button stays disabled, [window.Module] is never assigned and
    no script element is ever appended.  When the probe succeeds, no other
    probe touches the button: it is as the markup left it, and a click on an
    enabled button appends the module script. *)
Theorem SharedArrayBuffer_gate (host : Host) (m : Markup) :
  (has_SharedArrayBuffer host = false ->
   forall es : list event,
     btnStart_disabled (run host es (page_load host m)) = true /\
     Module_installed (run host es (page_load host m)) = false /\
     body_scripts (run host es (page_load host m)) = []) /\
  (has_SharedArrayBuffer host = true ->
   btnStart_disabled (page_load host m) = m_btnStart_disabled m /\
   (m_btnStart_disabled m = false ->
    body_scripts (step host (page_load host m) Click_btnStart)
    = [mkScript "quic_echo_server.js" Fetching])).
Proof.
  split.
  - intros H es. apply (run_gated host es), page_load_gated, H.
  - intros H. pose proof (page_load_btnStart host m H) as Hb. split; [exact Hb|].
    intros Hm. unfold step, deliverable. rewrite Hb, Hm. cbn [negb listener browser].
    unfold page_load, checkEnvironment. rewrite H. reflexivity.
Qed.

(** The gate on a host without [SharedArrayBuffer], under a click, a
    listening line and a script error; and the click on a host that has it. *)
Lemma SharedArrayBuffer_gate_witness :
  (btnStart_disabled
     (run host_without_SharedArrayBuffer
        [Click_btnStart; Module_printErr "Listening"; Script_error]
        (page_load host_without_SharedArrayBuffer sample_markup)) = true /\
   Module_installed
     (run host_without_SharedArrayBuffer
        [Click_btnStart; Module_printErr "Listening"; Script_error]
        (page_load host_without_SharedArrayBuffer sample_markup)) = false /\
   body_scripts
     (run host_without_SharedArrayBuffer
        [Click_btnStart; Module_printErr "Listening"; Script_error]
        (page_load host_without_SharedArrayBuffer sample_markup)) = []) /\
  body_scripts (step host_without_badging
                  (page_load host_without_badging sample_markup) Click_btnStart)
  = [mkScript "quic_echo_server.js" Fetching].
Proof.
  split.
  - exact (proj1 (SharedArrayBuffer_gate host_without_SharedArrayBuffer sample_markup)
             eq_refl [Click_btnStart; Module_printErr "Listening"; Script_error]).
  - exact (proj2 (proj2 (SharedArrayBuffer_gate host_without_badging sample_markup) eq_refl)
             eq_refl).
Defined.

(** ** The start button after the page load *)

Lemma browser_btnStart (e : event) (p : Page) :
  btnStart_disabled (browser e p) = btnStart_disabled p.
Proof. destruct e; reflexivity. Qed.

Lemma listener_btnStart (host : Host) (e : event) (p : Page) :
  e <> Script_error ->
  btnStart_disabled p = true -> btnStart_disabled (listener host e p) = true.
Proof.
  intros He Hd. destruct e; cbn [listener]; try exact Hd; try reflexivity.
  - contradiction.
  - now rewrite (proj1 (proj2 (proj2 (proj2 (proj2 (proj2 (printErr_fields host text p))))))).
  - unfold beforeunload. destruct (badgingSupported host); exact Hd.
Qed.

Lemma step_btnStart (host : Host) (e : event) (p : Page) :
  e <> Script_error ->
  btnStart_disabled p = true -> btnStart_disabled (step host p e) = true.
Proof.
  intros He Hd. unfold step. destruct (deliverable e p); [|exact Hd].
  apply listener_btnStart; [exact He|]. now rewrite browser_btnStart.
Qed.

(** C3.  The [error] listener of the module script enables the start
    button; [startServer] disables it; and no other listener enables it:
    from a page whose button is disabled, every listener but the [error]
    one, and every run of events without a script [error], leaves it
    disabled. *)
Theorem only_script_error_enables_start (host : Host) :
  (forall p, btnStart_disabled (script_onerror p) = false) /\
  (forall p, btnStart_disabled (startServer p) = true) /\
  (forall e p, e <> Script_error -> btnStart_disabled p = true ->
               btnStart_disabled (listener host e p) = true) /\
  (forall es p, ~ In Script_error es -> btnStart_disabled p = true ->
                btnStart_disabled (run host es p) = true).
Proof.
  split; [reflexivity|]. split; [reflexivity|].
  split; [intros e p; apply listener_btnStart|].
  induction es as [|e es IH]; intros p Hn Hd; [exact Hd|].
  cbn [run fold_left]. apply IH.
  - intros Hin. apply Hn. now right.
  - apply step_btnStart; [|exact Hd]. intros ->. apply Hn. now left.
Qed.

(** A fatal line, an abort, a listening line and the script's [load] after
    [startServer]: the button is still disabled. *)
Lemma only_script_error_enables_start_witness :
  btnStart_disabled
    (run full_host
       [Module_printErr "FATAL: bind failed"; Module_onAbort "unreachable";
        Module_printErr "Listening on port 4433"; Script_load]
       (startServer (page_load full_host sample_markup))) = true.
Proof.
  apply (proj2 (proj2 (proj2 (only_script_error_enables_start full_host)))).
  - intros [H | [H | [H | [H | []]]]]; discriminate H.
  - reflexivity.
Defined.

(** ** The connection counter *)

Lemma count_after_line_nonneg (text : string) (c : Z) :
  0 <= c -> 0 <= count_after_line text c.
Proof.
  unfold count_after_line, count_after_established.
  destruct (Regex.test re_established text), (Regex.test re_closed text); lia.
Qed.

Lemma printErr_connectionCount (host : Host) (text : string) (p : Page) :
  connectionCount (printErr host text p) = count_after_line text (connectionCount p).
Proof. apply (printErr_fields host text p). Qed.

Lemma listener_connectionCount_nonneg (host : Host) (e : event) (p : Page) :
  0 <= connectionCount p -> 0 <= connectionCount (listener host e p).
Proof.
  intros H. destruct e; cbn [listener]; try exact H.
  - rewrite printErr_connectionCount. now apply count_after_line_nonneg.
  - unfold beforeunload. destruct (badgingSupported host); exact H.
Qed.

Lemma step_connectionCount_nonneg (host : Host) (p : Page) (e : event) :
  0 <= connectionCount p -> 0 <= connectionCount (step host p e).
Proof.
  intros H. unfold step. destruct (deliverable e p); [|exact H].
  apply listener_connectionCount_nonneg. destruct e; exact H.
Qed.

Lemma page_load_connectionCount (host : Host) (m : Markup) :
  connectionCount (page_load host m) = 0.
Proof.
  unfold page_load, checkEnvironment.
  destruct (has_SharedArrayBuffer host); reflexivity.
Qed.

Lemma run_connectionCount_nonneg (host : Host) (es : list event) (p : Page) :
  0 <= connectionCount p -> 0 <= connectionCount (run host es p).
Proof.
  revert p. induction es as [|e es IH]; intros p H; [exact H|].
  apply IH, step_connectionCount_nonneg, H.
Qed.

(** C4.  The connection counter is never negative: it is 0 after the page
    load, every run of events keeps it at or above 0, and the decrement of
    a closing line applied at 0 leaves 0 (for the block itself, and for a
    whole diagnostic line that announces a closing and no new
    connection). *)
Theorem connectionCount_never_negative (host : Host) :
  (forall m es, 0 <= connectionCount (run host es (page_load host m))) /\
  (forall es p, 0 <= connectionCount p -> 0 <= connectionCount (run host es p)) /\
  (forall p, 0 <= connectionCount (printErr_closed host p)) /\
  (forall p, connectionCount p = 0 -> connectionCount (printErr_closed host p) = 0) /\
  (forall text p,
      connectionCount p = 0 ->
      Regex.test re_closed text = true ->
      Regex.test re_established text = false ->
      connectionCount (printErr host text p) = 0).
Proof.
  repeat split.
  - intros m es. apply run_connectionCount_nonneg.
    rewrite page_load_connectionCount. lia.
  - intros es p. apply run_connectionCount_nonneg.
  - intros p. unfold printErr_closed. rewrite updateBadge_eq. fields. lia.
  - intros p H. unfold printErr_closed. rewrite updateBadge_eq. fields. lia.
  - intros text p H Hc He. rewrite printErr_connectionCount.
    unfold count_after_line, count_after_established. rewrite Hc, He, H. reflexivity.
Qed.

(** Closing lines before and after a connection line. *)
Lemma connectionCount_never_negative_witness :
  0 <= connectionCount
         (run full_host
            [Click_btnStart; Module_printErr "connection closed";
             Module_printErr "new QUIC connection"; Module_printErr "draining";
             Module_printErr "connection timeout"]
            (page_load full_host sample_markup)) /\
  connectionCount
    (printErr full_host "connection closed"
       (startServer (page_load full_host sample_markup))) = 0.
Proof.
  split.
  - apply (proj1 (connectionCount_never_negative full_host)).
  - apply (proj2 (proj2 (proj2 (proj2 (connectionCount_never_negative full_host)))));
      reflexivity.
Defined.

(** ** The badge *)

(** C5, as the code has it.  After [updateBadge c] the counter is [c], the
    badge of the page shows the decimal text of [c] and is visible exactly
    when [c > 0]; the Badging API is called only on a host that has it, with
    [setAppBadge c] when [c > 0] and [clearAppBadge] otherwise, and on a
    host without it no call is made. *)
Theorem updateBadge_badge (host : Host) (c : Z) (p : Page) :
  connectionCount (updateBadge host c p) = c /\
  (badge_visible (updateBadge host c p) = true <-> 0 < c) /\
  badgeCountEl (updateBadge host c p) = String_of c /\
  appBadge_calls (updateBadge host c p) =
    (appBadge_calls p ++
       if has_setAppBadge host
       then [if c >? 0 then setAppBadge c else clearAppBadge]
       else [])%list.
Proof.
  rewrite updateBadge_eq. unfold badge_visible, badge_request, badgingSupported. fields.
  repeat split; try reflexivity.
  - destruct (Z.gtb_spec c 0); [lia | discriminate].
  - intros H. destruct (Z.gtb_spec c 0); [reflexivity | lia].
Qed.

(** C5, the claim as stated fails: on a host without the Badging API the
    first connection sets the counter to 1 and shows the badge of the page
    with the text 1, and no call reaches the external badge. *)
Lemma no_external_badge_without_api :
  connectionCount
    (printErr host_without_badging "new QUIC connection"
       (startServer (page_load host_without_badging sample_markup))) = 1 /\
  badge_visible
    (printErr host_without_badging "new QUIC connection"
       (startServer (page_load host_without_badging sample_markup))) = true /\
  badgeCountEl
    (printErr host_without_badging "new QUIC connection"
       (startServer (page_load host_without_badging sample_markup))) = "1" /\
  appBadge_calls
    (printErr host_without_badging "new QUIC connection"
       (startServer (page_load host_without_badging sample_markup))) = [].
Proof. repeat split. Qed.

(** ** Connection lines *)

Lemma printErr_window_opens (host : Host) (text : string) (p : Page) :
  window_opens (printErr host text p) =
  (window_opens p
     ++ (if Regex.test re_established text
         then ["/quic.html?conn=" ++ String_of (connectionCount p + 1)]%string
         else []))%list.
Proof. apply (printErr_fields host text p). Qed.

Lemma printErr_badgeCountEl (host : Host) (text : string) (p : Page) :
  badgeCountEl (printErr host text p) =
  if Regex.test re_established text || Regex.test re_closed text
  then String_of (count_after_line text (connectionCount p)) else badgeCountEl p.
Proof. apply (printErr_fields host text p). Qed.

Lemma established_lines_count_up (host : Host) (texts : list string) (p : Page) :
  Forall (fun t => Regex.test re_established t = true /\ Regex.test re_closed t = false)
         texts ->
  connectionCount (fold_left (fun q t => printErr host t q) texts p)
  = connectionCount p + Z.of_nat (length texts) /\
  window_opens (fold_left (fun q t => printErr host t q) texts p)
  = (window_opens p
       ++ map (fun k => conn_url (connectionCount p + Z.of_nat k))
              (seq 1 (length texts)))%list.
Proof.
  revert p. induction texts as [|t texts IH]; intros p HF.
  - cbn [fold_left length seq map]. rewrite app_nil_r. split; [lia | reflexivity].
  - inversion HF as [|t' texts' [He Hc] HF']; subst.
    cbn [fold_left length]. destruct (IH (printErr host t p) HF') as [IHc IHw].
    rewrite IHc, IHw, printErr_window_opens, printErr_connectionCount.
    unfold count_after_line, count_after_established. rewrite He, Hc.
    split.
    + clear. lia.
    + assert (T : map (fun k => conn_url (connectionCount p + Z.of_nat k))
                      (seq 2 (length texts))
                  = map (fun k => conn_url (connectionCount p + 1 + Z.of_nat k))
                      (seq 1 (length texts))).
      { rewrite <- (seq_shift (length texts) 1), map_map. apply map_ext. intros k.
        f_equal. clear. lia. }
      rewrite <- app_assoc. cbn [app seq map]. rewrite T.
      replace (connectionCount p + Z.of_nat 1) with (connectionCount p + 1)
        by (clear; lia).
      reflexivity.
Qed.

(** C6, as the code has it.  The block of a connection line adds exactly 1
    to the counter and calls [window.open] exactly once, on the URL that
    carries the counter after the increment; so does a whole diagnostic
    line that announces a connection (the counter, when the line does not
    also announce a closing).  The number in the URL is the counter of
    connections not yet closed, not a sequence number: from a counter at 0
    the k-th of a run of connection lines is opened for k, and when a
    closing line comes between two connection lines the second is opened
    for the same number as the first.  From a counter at 0, three
    connection lines and one closing line leave the counter at 2, the badge
    text at 2, and exactly the three requests for 1, 2 and 3. *)
Theorem established_increments_and_spawns (host : Host) :
  (forall p,
      connectionCount (printErr_established host p) = connectionCount p + 1 /\
      window_opens (printErr_established host p) =
        (window_opens p ++ ["/quic.html?conn=" ++ String_of (connectionCount p + 1)]%string)%list) /\
  (forall text p,
      Regex.test re_established text = true ->
      window_opens (printErr host text p) =
        (window_opens p ++ ["/quic.html?conn=" ++ String_of (connectionCount p + 1)]%string)%list /\
      (Regex.test re_closed text = false ->
       connectionCount (printErr host text p) = connectionCount p + 1)) /\
  (forall texts p,
      Forall (fun t => Regex.test re_established t = true /\ Regex.test re_closed t = false)
             texts ->
      connectionCount p = 0 ->
      connectionCount (fold_left (fun q t => printErr host t q) texts p)
      = Z.of_nat (length texts) /\
      window_opens (fold_left (fun q t => printErr host t q) texts p)
      = (window_opens p
           ++ map (fun k => "/quic.html?conn=" ++ String_of (Z.of_nat k))%string
                  (seq 1 (length texts)))%list) /\
  (forall t1 tc t2 p,
      0 <= connectionCount p ->
      Regex.test re_established t1 = true -> Regex.test re_closed t1 = false ->
      Regex.test re_established tc = false -> Regex.test re_closed tc = true ->
      Regex.test re_established t2 = true ->
      window_opens (printErr host t2 (printErr host tc (printErr host t1 p)))
      = (window_opens p
           ++ ["/quic.html?conn=" ++ String_of (connectionCount p + 1);
               "/quic.html?conn=" ++ String_of (connectionCount p + 1)]%string)%list) /\
  (forall p,
      connectionCount p = 0 ->
      connectionCount
        (printErr host "connection closed"
           (printErr host "new QUIC connection"
              (printErr host "new QUIC connection"
                 (printErr host "new QUIC connection" p)))) = 2 /\
      badgeCountEl
        (printErr host "connection closed"
           (printErr host "new QUIC connection"
              (printErr host "new QUIC connection"
                 (printErr host "new QUIC connection" p)))) = "2" /\
      window_opens
        (printErr host "connection closed"
           (printErr host "new QUIC connection"
              (printErr host "new QUIC connection"
                 (printErr host "new QUIC connection" p)))) =
        (window_opens p
           ++ ["/quic.html?conn=1"; "/quic.html?conn=2"; "/quic.html?conn=3"])%list).
Proof.
  split; [|split; [|split; [|split]]].
  - intros p. rewrite printErr_established_eq, updateBadge_eq. fields. now split.
  - intros text p He. rewrite printErr_window_opens, printErr_connectionCount, He.
    split; [reflexivity|]. intros Hc.
    unfold count_after_line, count_after_established. now rewrite He, Hc.
  - intros texts p HF H0.
    destruct (established_lines_count_up host texts p HF) as [Hc Hw].
    rewrite Hc, Hw, H0. split; [lia | reflexivity].
  - intros t1 tc t2 p H0 E1 C1 Ec Cc E2.
    rewrite !printErr_window_opens, !printErr_connectionCount.
    unfold count_after_line, count_after_established.
    rewrite E1, C1, Ec, Cc, E2, app_nil_r, <- app_assoc. cbn [app].
    replace (Z.max 0 (connectionCount p + 1 - 1) + 1) with (connectionCount p + 1) by lia.
    reflexivity.
  - intros p H0.
    assert (E : Regex.test re_established "new QUIC connection" = true) by reflexivity.
    assert (E' : Regex.test re_closed "new QUIC connection" = false) by reflexivity.
    assert (C : Regex.test re_established "connection closed" = false) by reflexivity.
    assert (C' : Regex.test re_closed "connection closed" = true) by reflexivity.
    rewrite !printErr_badgeCountEl, !printErr_window_opens, !printErr_connectionCount.
    unfold count_after_line, count_after_established.
    rewrite E, E', C, C', H0. cbn [orb]. tidy_lists. repeat split.
Qed.

(** The scenario after [startServer], a handshake line, and two connection
    lines in a row. *)
Lemma established_increments_and_spawns_witness :
  connectionCount
    (printErr full_host "connection closed"
       (printErr full_host "new QUIC connection"
          (printErr full_host "new QUIC connection"
             (printErr full_host "new QUIC connection"
                (startServer (page_load full_host sample_markup)))))) = 2 /\
  connectionCount
    (printErr full_host "QUIC handshake completed"
       (startServer (page_load full_host sample_markup))) = 0 + 1 /\
  window_opens
    (fold_left (fun q t => printErr full_host t q)
       ["new QUIC connection"; "connection established"]
       (startServer (page_load full_host sample_markup)))
  = ["/quic.html?conn=1"; "/quic.html?conn=2"].
Proof.
  split; [|split].
  - apply (proj2 (proj2 (proj2 (proj2 (established_increments_and_spawns full_host))))).
    reflexivity.
  - apply (proj1 (proj2 (established_increments_and_spawns full_host))); reflexivity.
  - apply (proj1 (proj2 (proj2 (established_increments_and_spawns full_host)))
             ["new QUIC connection"; "connection established"]
             (startServer (page_load full_host sample_markup))).
    + repeat constructor.
    + reflexivity.
Defined.

(** C6, the claim as stated fails: the number in the URL is not the
    1-based ordinal of the connection.  After a connection line and a
    closing line, the second connection of the page is opened for 1 again. *)
Lemma second_connection_is_opened_for_one_again :
  window_opens
    (run full_host
       [Click_btnStart; Module_printErr "new QUIC connection";
        Module_printErr "connection closed"; Module_printErr "new QUIC connection"]
       (page_load full_host sample_markup))
  = ["/quic.html?conn=1"; "/quic.html?conn=1"] /\
  connectionCount
    (run full_host
       [Click_btnStart; Module_printErr "new QUIC connection";
        Module_printErr "connection closed"; Module_printErr "new QUIC connection"]
       (page_load full_host sample_markup)) = 1.
Proof. split; reflexivity. Qed.

(** C7.  The pattern tests of [Module.printErr] are separate [if]s: the one
    line "Listening: new QUIC connection" passes both the listening test
    and the connection test, and processing it adds 1 to the counter, opens
    the view of that connection and sets the status to running. *)
Theorem one_line_fires_both_triggers (host : Host) :
  exists text : string,
    Regex.test re_listening text = true /\
    Regex.test re_established text = true /\
    forall p,
      connectionCount (printErr host text p) = connectionCount p + 1 /\
      window_opens (printErr host text p) =
        (window_opens p ++ ["/quic.html?conn=" ++ String_of (connectionCount p + 1)]%string)%list /\
      statusTextEl (printErr host text p) = "running — port 4433" /\
      statusEl (printErr host text p) = "status-pill status-running".
Proof.
  exists "Listening: new QUIC connection".
  split; [reflexivity|]. split; [reflexivity|]. intros p.
  pose proof (printErr_fields host "Listening: new QUIC connection" p) as F.
  cbv zeta in F.
  destruct F as (_ & _ & Fc & Ft & Fs & _ & _ & _ & _ & _ & _ & _ & _ & _ & _ & Fw).
  rewrite Fc, Ft, Fs, Fw. repeat split.
Qed.

(** ** The status pill *)

(** C2, as the code has it.  The script keeps no session variable and
    [Module.printErr] does not look at the status before it writes it: a
    diagnostic line that starts with FATAL: sets the status to error, any
    other line that passes the listening test sets it to running, whatever
    the status was, and every other diagnostic line leaves it as it was;
    a line of the standard channel never changes it. *)
Theorem status_after_line (host : Host) (text : string) (p : Page) :
  statusTextEl (printErr host text p) =
    (if Regex.test re_fatal text then "error"
     else if Regex.test re_listening text then "running — port 4433"
     else statusTextEl p) /\
  statusEl (printErr host text p) =
    (if Regex.test re_fatal text then "status-pill status-error"
     else if Regex.test re_listening text then "status-pill status-running"
     else statusEl p) /\
  statusTextEl (print text p) = statusTextEl p /\
  statusEl (print text p) = statusEl p.
Proof.
  pose proof (printErr_fields host text p) as F. cbv zeta in F.
  destruct F as (_ & _ & _ & Ft & Fs & _).
  rewrite Ft, Fs. repeat split.
Qed.

(** C2, the claim as stated fails: after a fatal line has set the status to
    error, and after an abort has set it to aborted, a listening line sets
    it back to running. *)
Lemma listening_after_error_runs_again :
  (statusTextEl
     (run full_host
        [Click_btnStart; Script_load; Module_printErr "FATAL: bind failed"]
        (page_load full_host sample_markup)) = "error" /\
   statusTextEl
     (run full_host
        [Click_btnStart; Script_load; Module_printErr "FATAL: bind failed";
         Module_printErr "Listening on port 4433"]
        (page_load full_host sample_markup)) = "running — port 4433" /\
   statusEl
     (run full_host
        [Click_btnStart; Script_load; Module_printErr "FATAL: bind failed";
         Module_printErr "Listening on port 4433"]
        (page_load full_host sample_markup)) = "status-pill status-running") /\
  (statusTextEl
     (run full_host
        [Click_btnStart; Script_load; Module_onAbort "unreachable"]
        (page_load full_host sample_markup)) = "aborted" /\
   statusTextEl
     (run full_host
        [Click_btnStart; Script_load; Module_onAbort "unreachable";
         Module_printErr "Waiting for QUIC"]
        (page_load full_host sample_markup)) = "running — port 4433" /\
   statusEl
     (run full_host
        [Click_btnStart; Script_load; Module_onAbort "unreachable";
         Module_printErr "Waiting for QUIC"]
        (page_load full_host sample_markup)) = "status-pill status-running").
Proof. repeat split. Qed.

(** ** The log pane *)

Lemma print_logEl (text : string) (p : Page) :
  logEl (print text p) = (logEl p ++ [own_line text])%list.
Proof. reflexivity. Qed.

Lemma printErr_logEl (host : Host) (text : string) (p : Page) :
  logEl (printErr host text p) =
  (logEl p ++ own_line text
     :: (if Regex.test re_established text
         then [connection_line (connectionCount p + 1)] else []))%list.
Proof. apply (printErr_fields host text p). Qed.

Lemma deliver_logEl (host : Host) (p : Page) (l : channel * string) :
  logEl (deliver host p l) = (logEl p ++ emitted (connectionCount p) l)%list.
Proof.
  destruct l as [[|] text]; unfold deliver, emitted; cbn [fst snd].
  - apply print_logEl.
  - apply printErr_logEl.
Qed.

(** C8, as the code has it.  Processing a line appends, within the call, the
    log line of the text itself; a diagnostic line that announces a
    connection appends one more after it, the "Connection #n" line.  Lines
    processed one after the other leave their log lines in the order the
    lines came, after what the log already held. *)
Theorem lines_logged_in_order (host : Host) :
  (forall text p, logEl (print text p) = (logEl p ++ [own_line text])%list) /\
  (forall text p,
      logEl (printErr host text p) =
      (logEl p ++ own_line text
         :: (if Regex.test re_established text
             then [connection_line (connectionCount p + 1)] else []))%list) /\
  (forall ls p,
      logEl (fold_left (deliver host) ls p) = (logEl p ++ emitted_all host p ls)%list).
Proof.
  split; [exact print_logEl|]. split; [exact (printErr_logEl host)|].
  induction ls as [|l ls IH]; intros p; cbn [fold_left emitted_all].
  - now rewrite app_nil_r.
  - now rewrite IH, deliver_logEl, app_assoc.
Qed.

(** C8, the claim as stated fails: one diagnostic line that announces a
    connection appends two log lines. *)
Lemma connection_line_logs_twice :
  logEl (printErr full_host "new QUIC connection"
           (clearLog (startServer (page_load full_host sample_markup))))
  = [mkLine "log-line log-info" "new QUIC connection";
     mkLine "log-line log-ok" "Connection #1 — badge updated"].
Proof. reflexivity. Qed.

(** C9.  [log] gives a line one class.  A class passed by the caller is
    used as it is; otherwise the class is the one of the first test that
    passes, in the order error, success, warning, and log-info when none
    passes: the cascade of [log] is the first match over the ordered table
    [severity_rules]. *)
Theorem log_severity (msg cls : string) (p : Page) (H : cls <> "") :
  logEl (log msg (Some cls) p) = (logEl p ++ [mkLine ("log-line " ++ cls) msg])%list /\
  logEl (log msg None p) =
    (logEl p ++ [mkLine ("log-line " ++ severity_class msg) msg])%list /\
  severity_class msg = first_match severity_rules "log-info" msg /\
  In (severity_class msg) ["log-err"; "log-ok"; "log-warn"; "log-info"] /\
  (Regex.test re_log_err msg = true -> severity_class msg = "log-err") /\
  (Regex.test re_log_err msg = false -> Regex.test re_log_ok msg = true ->
   severity_class msg = "log-ok") /\
  (Regex.test re_log_err msg = false -> Regex.test re_log_ok msg = false ->
   Regex.test re_log_warn msg = true -> severity_class msg = "log-warn") /\
  (Regex.test re_log_err msg = false -> Regex.test re_log_ok msg = false ->
   Regex.test re_log_warn msg = false -> severity_class msg = "log-info").
Proof.
  split.
  { unfold log, not_cls. apply String.eqb_neq in H. rewrite H. reflexivity. }
  split; [reflexivity|].
  unfold severity_class, first_match, severity_rules. cbn [find fst snd].
  destruct (Regex.test re_log_err msg), (Regex.test re_log_ok msg),
    (Regex.test re_log_warn msg); cbn [In];
    repeat split; auto; try discriminate; intros; discriminate.
Qed.

(** The abort line of [onAbort], and a line that passes both the success
    and the warning test. *)
Lemma log_severity_witness :
  logEl (log "Module aborted: unreachable" (Some "log-err")
           (document_of sample_markup))
  = [mkLine "log-line log-err" "Module aborted: unreachable"] /\
  severity_class "warning: cert loaded" = "log-ok".
Proof.
  assert (N : "log-err" <> "") by discriminate.
  split.
  - apply (proj1 (log_severity "Module aborted: unreachable" "log-err"
                    (document_of sample_markup) N)).
  - apply (log_severity "warning: cert loaded" "log-err" (document_of sample_markup) N);
      reflexivity.
Defined.

(** C10.  [Module.print] only logs: whatever the text, even one that passes
    every test of [Module.printErr], it appends the one log line of the text
    and leaves the status, the connection counter, the badge of the page,
    the calls on the Badging API, the opened views, the start button, the
    loading overlay and everything else but the line counter as they
    were. *)
Theorem print_fires_no_trigger (text : string) (p : Page) :
  logEl (print text p) = (logEl p ++ [own_line text])%list /\
  lineCount (print text p) = lineCount p + 1 /\
  statusTextEl (print text p) = statusTextEl p /\
  statusEl (print text p) = statusEl p /\
  connectionCount (print text p) = connectionCount p /\
  badgeCountEl (print text p) = badgeCountEl p /\
  badgeDisplay (print text p) = badgeDisplay p /\
  appBadge_calls (print text p) = appBadge_calls p /\
  window_opens (print text p) = window_opens p /\
  btnStart_disabled (print text p) = btnStart_disabled p /\
  loadingOverlay_active (print text p) = loadingOverlay_active p /\
  logContainer_glow (print text p) = logContainer_glow p /\
  Module_installed (print text p) = Module_installed p /\
  body_scripts (print text p) = body_scripts p.
Proof. repeat split. Qed.

(** ** Further properties: runs of events *)

Lemma run_invariant (host : Host) (I : Page -> Prop) :
  (forall p e, I p -> I (step host p e)) ->
  forall es p, I p -> I (run host es p).
Proof.
  intros Hstep es. induction es as [|e es IH]; intros p Hp; [exact Hp|].
  apply IH, Hstep, Hp.
Qed.

(** ** Further properties: the log pane *)

Ltac open_listeners :=
  unfold startServer, script_onload, script_onerror, print, onAbort, clearLog.

Lemma log_counts_log_lines (msg : string) (cls : option string) (p : Page) :
  counts_log_lines p -> counts_log_lines (log msg cls p).
Proof.
  unfold counts_log_lines. intros H. fields. rewrite length_app. cbn [length]. lia.
Qed.

Lemma listener_counts_log_lines (host : Host) (e : event) (p : Page) :
  counts_log_lines p -> counts_log_lines (listener host e p).
Proof.
  intros H. destruct e; cbn [listener].
  - apply log_counts_log_lines with (p := set_loadingOverlay_active true
      (setStatus "loading..." "status-loading" (set_btnStart_disabled true p))).
    exact H.
  - reflexivity.
  - now apply log_counts_log_lines.
  - apply log_counts_log_lines with (p := p) (msg := "Failed to load quic_echo_server.js")
      (cls := Some "log-err"). exact H.
  - now apply log_counts_log_lines.
  - unfold counts_log_lines in *.
    destruct (printErr_fields host text p) as (Fl & Fn & _).
    rewrite Fl, Fn. destruct (Regex.test re_established text);
      rewrite length_app; cbn [length]; lia.
  - apply log_counts_log_lines with (p := p) (msg := "Module aborted: " ++ what)
      (cls := Some "log-err"). exact H.
  - unfold beforeunload. destruct (badgingSupported host); exact H.
Qed.

Lemma step_counts_log_lines (host : Host) (p : Page) (e : event) :
  counts_log_lines p -> counts_log_lines (step host p e).
Proof.
  intros H. unfold step. destruct (deliverable e p); [|exact H].
  apply listener_counts_log_lines. destruct e; exact H.
Qed.


Lemma caps_fold (l : list (string * bool)) (n : Z) (p : Page) :
  fold_left
    (fun (acc : Z * Page) (c : string * bool) =>
       let '(okCount, p) := acc in
       let okCount := if snd c then okCount + 1 else okCount in
       (okCount, set_capsGrid (capsGrid p ++ [createCapItem (fst c) (snd c)]) p))
    l (n, p)
  = (n + Z.of_nat (length (filter snd l)),
     set_capsGrid (capsGrid p ++ map (fun c => createCapItem (fst c) (snd c)) l) p).
Proof.
  revert n p. induction l as [|c l IH]; intros n p.
  - cbn [fold_left filter map length]. rewrite app_nil_r, Z.add_0_r.
    destruct p; reflexivity.
  - cbn [fold_left filter map]. rewrite IH. fields. rewrite <- app_assoc. cbn [app].
    destruct (snd c); cbn [length]; f_equal; lia.
Qed.

Lemma detectCapabilities_eq (host : Host) (p : Page) :
  detectCapabilities host p =
  log ("IWA capabilities: "
         ++ String_of (Z.of_nat (length (filter snd (caps host))))
         ++ "/20 APIs detected")
      (Some "log-ok")
      (set_capsGrid
         (capsGrid p ++ map (fun c => createCapItem (fst c) (snd c)) (caps host)) p).
Proof.
  unfold detectCapabilities. rewrite caps_fold. reflexivity.
Qed.

Lemma checkEnvironment_lengths (host : Host) (p : Page) :
  lineCount (checkEnvironment host p) = lineCount p + 5 /\
  length (logEl (checkEnvironment host p)) = (length (logEl p) + 5)%nat /\
  length (envGrid (checkEnvironment host p)) = (length (envGrid p) + 4)%nat.
Proof.
  unfold checkEnvironment.
  destruct (has_SharedArrayBuffer host); cbn [negb];
    cbn [fold_left checks logEl logCountEl lineCount connectionCount statusTextEl statusEl
       btnStart_disabled loadingOverlay_active logContainer_glow badgeCountEl
       badgeDisplay envGrid capsGrid Module_installed body_scripts
       appBadge_calls window_opens
       set_logEl set_logCountEl set_lineCount set_connectionCount
       set_statusTextEl set_statusEl set_btnStart_disabled
       set_loadingOverlay_active set_logContainer_glow set_badgeCountEl
       set_badgeDisplay set_envGrid set_capsGrid set_Module_installed
       set_body_scripts set_appBadge_calls set_window_opens
       log setStatus];
    rewrite !length_app; cbn [length]; repeat split; lia.
Qed.

Lemma page_load_counts_log_lines (host : Host) (m : Markup) :
  m_log m = [] -> counts_log_lines (page_load host m).
Proof.
  intros H. unfold page_load. rewrite detectCapabilities_eq.
  apply log_counts_log_lines. unfold counts_log_lines. fields.
  destruct (checkEnvironment_lengths host (document_of m)) as (Hn & Hl & _).
  rewrite Hn, Hl. cbn [document_of logEl lineCount]. rewrite H. reflexivity.
Qed.

(** X1.  The line counter is the number of lines in the log pane: after
    the page load over a markup whose log pane is empty, and after every
    run of events that follows (clearing the log included). *)
Theorem lineCount_is_log_length (host : Host) (m : Markup) (es : list event)
  (H : m_log m = []) :
  lineCount (run host es (page_load host m))
  = Z.of_nat (length (logEl (run host es (page_load host m)))).
Proof.
  apply (run_invariant host counts_log_lines).
  - intros p e. apply step_counts_log_lines.
  - now apply page_load_counts_log_lines.
Qed.

Lemma lineCount_is_log_length_witness :
  lineCount
    (run full_host
       [Click_btnStart; Module_printErr "new QUIC connection"; Click_btnClear;
        Module_print "echo"]
       (page_load full_host sample_markup))
  = Z.of_nat
      (length
         (logEl
            (run full_host
               [Click_btnStart; Module_printErr "new QUIC connection"; Click_btnClear;
                Module_print "echo"]
               (page_load full_host sample_markup)))).
Proof.
  exact (lineCount_is_log_length full_host sample_markup
           [Click_btnStart; Module_printErr "new QUIC connection"; Click_btnClear;
            Module_print "echo"] eq_refl).
Defined.





(** X3.  Whatever the host has, the page load appends six lines to the
    log: the four lines of the environment checks, then "Ready to start."
    when [SharedArrayBuffer] is there and the "Need COOP/COEP" error line
    when it is missing, then the capability count.  It appends four cards
    to the environment grid and the twenty items of [caps] to the
    capability grid in both cases: the early [return] of
    [checkEnvironment] skips nothing but the "Ready to start." line, and
    only the missing [SharedArrayBuffer] touches the status and the start
    button. *)
Theorem page_load_appends (host : Host) (m : Markup) :
  logEl (page_load host m) =
    (m_log m ++
       [own_line ("SharedArrayBuffer: "
                    ++ (if has_SharedArrayBuffer host then "available" else "missing"));
        own_line ("Cross-Origin Isolated: "
                    ++ (if is_crossOriginIsolated host then "yes" else "no"));
        own_line ("Direct Sockets: "
                    ++ (if has_TCPSocket host || has_UDPSocket host
                        then "available" else "unavailable"));
        own_line ("Badging API: "
                    ++ (if has_setAppBadge host then "available" else "unavailable"));
        (if has_SharedArrayBuffer host
         then mkLine "log-line log-ok" "Ready to start."
         else mkLine "log-line log-err"
                "Need COOP/COEP headers or IWA context for SharedArrayBuffer");
        mkLine "log-line log-ok"
          ("IWA capabilities: "
             ++ String_of (Z.of_nat (length (filter snd (caps host))))
             ++ "/20 APIs detected")])%list /\
  lineCount (page_load host m) = 6 /\
  length (envGrid (page_load host m)) = (length (m_envGrid m) + 4)%nat /\
  capsGrid (page_load host m) =
    (m_capsGrid m ++ map (fun c => createCapItem (fst c) (snd c)) (caps host))%list /\
  length (capsGrid (page_load host m)) = (length (m_capsGrid m) + 20)%nat /\
  btnStart_disabled (page_load host m) =
    (if has_SharedArrayBuffer host then m_btnStart_disabled m else true) /\
  statusTextEl (page_load host m) =
    (if has_SharedArrayBuffer host then m_statusText m else "missing SharedArrayBuffer").
Proof.
  assert (Hc : capsGrid (checkEnvironment host (document_of m)) = m_capsGrid m).
  { unfold checkEnvironment. destruct (has_SharedArrayBuffer host); reflexivity. }
  split; [|split; [|split; [|split; [|split; [|split]]]]].
  - unfold page_load. rewrite detectCapabilities_eq.
    unfold checkEnvironment, checks, badgingSupported.
    destruct (has_SharedArrayBuffer host); cbn [negb fold_left]; fields;
      cbn [document_of logEl]; rewrite <- !app_assoc; reflexivity.
  - unfold page_load. rewrite detectCapabilities_eq. fields.
    rewrite (proj1 (checkEnvironment_lengths host (document_of m))). reflexivity.
  - unfold page_load. rewrite detectCapabilities_eq. fields.
    rewrite (proj2 (proj2 (checkEnvironment_lengths host (document_of m)))). reflexivity.
  - unfold page_load. rewrite detectCapabilities_eq. fields. now rewrite Hc.
  - unfold page_load. rewrite detectCapabilities_eq. fields.
    rewrite Hc, length_app, length_map. reflexivity.
  - unfold page_load, checkEnvironment.
    destruct (has_SharedArrayBuffer host); reflexivity.
  - unfold page_load, checkEnvironment.
    destruct (has_SharedArrayBuffer host); reflexivity.
Qed.

Lemma filter_item_ok (l : list (string * bool)) :
  filter item_ok (map (fun c => createCapItem (fst c) (snd c)) l)
  = map (fun c => createCapItem (fst c) (snd c)) (filter snd l).
Proof.
  induction l as [|[name ok] l IH]; [reflexivity|].
  cbn [map filter fst snd]. rewrite IH. destruct ok; reflexivity.
Qed.

(** X4.  [detectCapabilities] appends one item per probe, in the order of
    [caps], and logs with the success class the number of items it marked
    as detected, a number between 0 and 20, out of 20. *)
Theorem detectCapabilities_reports_detected (host : Host) (p : Page) :
  exists items : list cap_item,
    capsGrid (detectCapabilities host p) = (capsGrid p ++ items)%list /\
    map item_name items = map fst (caps host) /\
    length items = 20%nat /\
    (length (filter item_ok items) <= 20)%nat /\
    logEl (detectCapabilities host p) =
      (logEl p ++
         [mkLine "log-line log-ok"
            ("IWA capabilities: "
               ++ String_of (Z.of_nat (length (filter item_ok items)))
               ++ "/20 APIs detected")])%list.
Proof.
  exists (map (fun c => createCapItem (fst c) (snd c)) (caps host)).
  rewrite detectCapabilities_eq, filter_item_ok, !length_map.
  split; [reflexivity|]. split; [now rewrite map_map|]. split; [reflexivity|].
  split; [|reflexivity].
  etransitivity; [apply filter_length_le|]. apply Nat.eq_le_incl. reflexivity.
Qed.

(** ** Further properties: the patterns against each other *)

Lemma anywhere_cons (f : string -> bool) (c : ascii) (s : string) :
  Regex.anywhere f s = true -> Regex.anywhere f (String c s) = true.
Proof. intros H. cbn [Regex.anywhere]. rewrite H. apply orb_true_r. Qed.

Lemma anywhere_here (f : string -> bool) (s : string) :
  f s = true -> Regex.anywhere f s = true.
Proof. intros H. destruct s; cbn [Regex.anywhere]; now rewrite H. Qed.

Lemma anywhere_weaken (f g : string -> bool) :
  (forall s, f s = true -> Regex.anywhere g s = true) ->
  forall s, Regex.anywhere f s = true -> Regex.anywhere g s = true.
Proof.
  intros Hfg s. induction s as [|c s IH]; cbn [Regex.anywhere]; intros H.
  - rewrite orb_false_r in H. apply (Hfg "" H).
  - apply orb_true_iff in H as [H | H].
    + apply (Hfg _ H).
    + apply anywhere_cons, IH, H.
Qed.

(** A match of [p1 p2] holds a match of [p2] further on. *)
Lemma match_here_tail (i : bool) (p1 p2 s : string) :
  Regex.match_here i (p1 ++ p2) s = true ->
  Regex.anywhere (Regex.match_here i p2) s = true.
Proof.
  revert s. induction p1 as [|a p1 IH]; intros s H.
  - now apply anywhere_here.
  - destruct s as [|b s]; [discriminate|]. cbn [append Regex.match_here] in H.
    apply andb_true_iff in H as [_ H]. apply anywhere_cons, IH, H.
Qed.

(** A match that heeds case is a match that ignores it. *)
Lemma match_here_ignoring_case (p s : string) :
  Regex.match_here false p s = true -> Regex.match_here true p s = true.
Proof.
  revert s. induction p as [|a p IH]; intros s H; [reflexivity|].
  destruct s as [|b s]; [discriminate|]. cbn [Regex.match_here] in *.
  apply andb_true_iff in H as [C H]. unfold Regex.char_eq in *.
  cbn [Regex.canonicalize] in C. apply Ascii.eqb_eq in C. subst b.
  rewrite Ascii.eqb_refl. now apply IH.
Qed.

Lemma test_alternatives (r : Regex.t) (s : string) :
  Regex.test r s = true <->
  exists a, In a (Regex.alternatives r) /\ Regex.alt_test (Regex.ignoreCase r) a s = true.
Proof. unfold Regex.test. apply existsb_exists. Qed.

(** X5.  A diagnostic line that starts with FATAL: passes the error test of
    [log] as well: the line that sets the status to error is itself logged
    with the error class. *)
Theorem fatal_line_is_logged_as_error (host : Host) (text : string) (p : Page)
  (H : Regex.test re_fatal text = true) :
  severity_class text = "log-err" /\
  statusTextEl (printErr host text p) = "error" /\
  exists rest,
    logEl (printErr host text p) = (logEl p ++ mkLine "log-line log-err" text :: rest)%list.
Proof.
  assert (E : Regex.test re_log_err text = true).
  { apply test_alternatives in H as (a & [<- | []] & H). cbn in H.
    apply test_alternatives. exists (Regex.Lit "FATAL:"). split; [now left|].
    cbn [Regex.alt_test re_log_err Regex.ignoreCase].
    apply anywhere_here, match_here_ignoring_case, H. }
  assert (S : severity_class text = "log-err") by (unfold severity_class; now rewrite E).
  split; [exact S|].
  destruct (printErr_fields host text p) as (Fl & _ & _ & Ft & _).
  rewrite Ft, Fl, H. split; [reflexivity|].
  unfold own_line. rewrite S. eexists. reflexivity.
Qed.

Lemma fatal_line_is_logged_as_error_witness :
  severity_class "FATAL: bind failed" = "log-err".
Proof.
  exact (proj1 (fatal_line_is_logged_as_error full_host "FATAL: bind failed"
                  (document_of sample_markup) eq_refl)).
Defined.

Lemma available_passes_log_ok (msg : string) :
  Regex.alt_test true (Regex.Lit "available") msg = true ->
  Regex.test re_log_ok msg = true.
Proof.
  intros H. apply test_alternatives. exists (Regex.Lit "available").
  split; [|exact H]. cbn. tauto.
Qed.

(** X6.  The warning test never decides through its alternative
    "not available": a text that holds "not available" holds "available"
    and so passes the success test, which comes first.  Such a text is
    logged as an error or as a success, and a text logged as a warning
    holds "warn" or "requires". *)
Theorem not_available_is_never_a_warning (msg : string) :
  (Regex.alt_test true (Regex.Lit "not available") msg = true ->
   severity_class msg = "log-err" \/ severity_class msg = "log-ok") /\
  (severity_class msg = "log-warn" ->
   Regex.alt_test true (Regex.Lit "warn") msg = true \/
   Regex.alt_test true (Regex.Lit "requires") msg = true).
Proof.
  assert (A : Regex.alt_test true (Regex.Lit "not available") msg = true ->
              Regex.test re_log_ok msg = true).
  { intros H. apply available_passes_log_ok. cbn [Regex.alt_test] in *.
    revert H. apply anywhere_weaken. intros s.
    apply (match_here_tail true "not " "available"). }
  unfold severity_class. split.
  - intros H. rewrite (A H). destruct (Regex.test re_log_err msg); auto.
  - destruct (Regex.test re_log_err msg); [intros D; discriminate D|].
    destruct (Regex.test re_log_ok msg) eqn:Ok; [intros D; discriminate D|].
    destruct (Regex.test re_log_warn msg) eqn:W; [|intros D; discriminate D].
    intros _. apply test_alternatives in W as (a & Ha & W).
    cbn [Regex.alternatives re_log_warn In Regex.ignoreCase] in Ha, W.
    destruct Ha as [<- | [<- | [<- | []]]]; auto.
    discriminate (A W).
Qed.

Lemma not_available_is_never_a_warning_witness :
  severity_class "Direct Sockets are NOT available" = "log-err" \/
  severity_class "Direct Sockets are NOT available" = "log-ok".
Proof.
  exact (proj1 (not_available_is_never_a_warning "Direct Sockets are NOT available")
           eq_refl).
Defined.

(** ** Further properties: the module script *)

Lemma fetching_positive (l : list script) :
  existsb is_fetching l = true -> (1 <= length (filter is_fetching l))%nat.
Proof.
  induction l as [|s l IH]; cbn [existsb filter]; [discriminate|].
  destruct (is_fetching s); cbn [orb length]; [lia | exact IH].
Qed.

Lemma settle_fetching (st : script_status) (l : list script) :
  st <> Fetching ->
  length (filter is_fetching (settle st l)) = pred (length (filter is_fetching l)).
Proof.
  intros Hst. induction l as [|[src status] l IH]; [reflexivity|].
  destruct status; cbn [settle filter is_fetching script_status_of script_src].
  - destruct st; [contradiction | reflexivity | reflexivity].
  - exact IH.
  - exact IH.
Qed.

Lemma settle_loaded (st : script_status) (l : list script) :
  existsb is_fetching l = true ->
  length (filter is_loaded (settle st l))
  = (length (filter is_loaded l) + match st with Loaded => 1 | _ => 0 end)%nat.
Proof.
  induction l as [|[src status] l IH]; cbn [existsb]; [discriminate|].
  destruct status;
    cbn [settle filter is_fetching is_loaded script_status_of script_src orb length].
  - intros _. destruct st; cbn [filter is_loaded script_status_of length]; lia.
  - intros H. rewrite (IH H). lia.
  - intros H. exact (IH H).
Qed.

Lemma page_load_body_scripts (host : Host) (m : Markup) :
  body_scripts (page_load host m) = [].
Proof.
  unfold page_load, checkEnvironment. destruct (has_SharedArrayBuffer host); reflexivity.
Qed.

Lemma step_one_load_at_most (host : Host) (p : Page) (e : event) :
  one_load_at_most p -> one_load_at_most (step host p e).
Proof.
  unfold one_load_at_most, fetching_or_loaded, step. intros [Hle H0].
  destruct (deliverable e p) eqn:D; [|now split].
  destruct e; cbn [listener browser deliverable] in *.
  - apply negb_true_iff in D. specialize (H0 D).
    unfold startServer. fields. rewrite !filter_app, !length_app. cbn.
    split; [lia | discriminate].
  - now split.
  - pose proof (fetching_positive _ D) as Hf.
    unfold script_onload. fields.
    rewrite settle_fetching by discriminate. rewrite (settle_loaded _ _ D).
    split; [lia|]. intros Hb. specialize (H0 Hb). lia.
  - pose proof (fetching_positive _ D) as Hf.
    unfold script_onerror. fields.
    rewrite settle_fetching by discriminate. rewrite (settle_loaded _ _ D).
    split; [lia|]. intros _. lia.
  - now split.
  - destruct (printErr_fields host text p)
      as (_ & _ & _ & _ & _ & Fb & _ & _ & _ & _ & _ & _ & _ & Fs & _).
    rewrite Fb, Fs. now split.
  - now split.
  - unfold beforeunload. destruct (badgingSupported host); now split.
Qed.

(** X7.  The page never has two loads of the module under way, and never
    starts a load once one has succeeded: after every run of events, at most
    one appended script is being fetched or has loaded, and none is while
    the start button is enabled. *)
Theorem one_module_load_at_a_time (host : Host) (m : Markup) (es : list event) :
  (fetching_or_loaded (body_scripts (run host es (page_load host m))) <= 1)%nat /\
  (btnStart_disabled (run host es (page_load host m)) = false ->
   fetching_or_loaded (body_scripts (run host es (page_load host m))) = 0%nat).
Proof.
  apply (run_invariant host one_load_at_most).
  - intros p e. apply step_one_load_at_most.
  - unfold one_load_at_most. rewrite page_load_body_scripts. split; [cbn; lia | reflexivity].
Qed.

Lemma one_module_load_at_a_time_witness :
  (fetching_or_loaded
     (body_scripts
        (run full_host [Click_btnStart; Script_error; Click_btnStart; Click_btnStart]
           (page_load full_host sample_markup))) <= 1)%nat.
Proof.
  exact (proj1 (one_module_load_at_a_time full_host sample_markup
                  [Click_btnStart; Script_error; Click_btnStart; Click_btnStart])).
Defined.

(** X8.  A failed load can be tried again: when the fetch of the module
    script fails, the failure stays on record, the start button is enabled,
    and the next click appends a fresh script, disables the button and
    shows the loading status and overlay again. *)
Theorem load_failure_is_retryable (host : Host) (p : Page)
  (H : existsb is_fetching (body_scripts p) = true) :
  btnStart_disabled (step host p Script_error) = false /\
  body_scripts (run host [Script_error; Click_btnStart] p)
  = (settle Failed (body_scripts p) ++ [mkScript "quic_echo_server.js" Fetching])%list /\
  btnStart_disabled (run host [Script_error; Click_btnStart] p) = true /\
  statusTextEl (run host [Script_error; Click_btnStart] p) = "loading..." /\
  loadingOverlay_active (run host [Script_error; Click_btnStart] p) = true.
Proof.
  assert (E : step host p Script_error
              = script_onerror (set_body_scripts (settle Failed (body_scripts p)) p)).
  { unfold step. cbn [deliverable]. now rewrite H. }
  unfold run. cbn [fold_left]. rewrite E. repeat split.
Qed.

Lemma load_failure_is_retryable_witness :
  statusTextEl
    (run full_host [Script_error; Click_btnStart]
       (startServer (page_load full_host sample_markup))) = "loading...".
Proof.
  apply (load_failure_is_retryable full_host
           (startServer (page_load full_host sample_markup)) eq_refl).
Defined.

(** ** Further properties: the badge over a run *)

Lemma badge_request_cases (host : Host) (c : Z) :
  badge_request host c = (if has_setAppBadge host then [badge_for c] else []).
Proof. reflexivity. Qed.

Lemma printErr_appBadge_calls (host : Host) (text : string) (p : Page) :
  appBadge_calls (printErr host text p) =
  (appBadge_calls p
     ++ (if Regex.test re_established text
         then badge_request host (connectionCount p + 1) else [])
     ++ (if Regex.test re_closed text
         then badge_request host
                (Z.max 0 (count_after_established text (connectionCount p) - 1))
         else []))%list.
Proof. apply (printErr_fields host text p). Qed.

Lemma step_no_badge_call (host : Host) (p : Page) (e : event) :
  has_setAppBadge host = false ->
  appBadge_calls p = [] -> appBadge_calls (step host p e) = [].
Proof.
  intros Hh H. unfold step. destruct (deliverable e p); [|exact H].
  destruct e; cbn [listener browser]; try exact H.
  - rewrite printErr_appBadge_calls, !badge_request_cases, Hh, H.
    now destruct (Regex.test re_established text), (Regex.test re_closed text).
  - unfold beforeunload, badgingSupported. now rewrite Hh.
Qed.

Lemma page_load_appBadge_calls (host : Host) (m : Markup) :
  appBadge_calls (page_load host m) = [].
Proof.
  unfold page_load, checkEnvironment. destruct (has_SharedArrayBuffer host); reflexivity.
Qed.

(** X9.  On a host without the Badging API the page never calls it: no
    run of events, the unload included, makes a call on the badge. *)
Theorem no_badge_call_without_api (host : Host) (m : Markup) (es : list event)
  (H : has_setAppBadge host = false) :
  appBadge_calls (run host es (page_load host m)) = [].
Proof.
  apply (run_invariant host (fun p => appBadge_calls p = [])).
  - intros p e. now apply step_no_badge_call.
  - apply page_load_appBadge_calls.
Qed.

Lemma no_badge_call_without_api_witness :
  appBadge_calls
    (run host_without_badging
       [Click_btnStart; Module_printErr "new QUIC connection";
        Module_printErr "connection closed"; Window_beforeunload]
       (page_load host_without_badging sample_markup)) = [].
Proof.
  exact (no_badge_call_without_api host_without_badging sample_markup
           [Click_btnStart; Module_printErr "new QUIC connection";
            Module_printErr "connection closed"; Window_beforeunload] eq_refl).
Defined.

Lemma positive_badge_for (c : Z) : positive_call (badge_for c).
Proof.
  unfold badge_for. destruct (Z.gtb_spec c 0); cbn [positive_call]; [lia | exact I].
Qed.

Lemma positive_badge_request (host : Host) (c : Z) :
  Forall positive_call (badge_request host c).
Proof.
  rewrite badge_request_cases. destruct (has_setAppBadge host); constructor.
  - apply positive_badge_for.
  - constructor.
Qed.

Lemma step_positive_calls (host : Host) (p : Page) (e : event) :
  Forall positive_call (appBadge_calls p) ->
  Forall positive_call (appBadge_calls (step host p e)).
Proof.
  intros H. unfold step. destruct (deliverable e p); [|exact H].
  destruct e; cbn [listener browser]; try exact H.
  - rewrite printErr_appBadge_calls. apply Forall_app. split; [exact H|].
    apply Forall_app.
    split; [destruct (Regex.test re_established text)|destruct (Regex.test re_closed text)];
      try constructor; apply positive_badge_request.
  - unfold beforeunload. destruct (badgingSupported host); [|exact H].
    apply Forall_app. split; [exact H|]. repeat constructor.
Qed.

(** X10.  [setAppBadge] is only ever called with a count above 0: in no
    run of events, on no host, is the badge set to 0 or to a negative
    count.  On a host with the Badging API an update to a count of 0 or
    below calls [clearAppBadge] instead, as does the closing line that
    takes the counter to 0, and an update to a count above 0 calls
    [setAppBadge] with that count; on a host without the API an update
    makes no call. *)
Theorem setAppBadge_only_above_zero (host : Host) (m : Markup) (es : list event) :
  Forall positive_call (appBadge_calls (run host es (page_load host m))) /\
  (has_setAppBadge host = true ->
   (forall c p, c <= 0 ->
      appBadge_calls (updateBadge host c p) = (appBadge_calls p ++ [clearAppBadge])%list) /\
   (forall c p, 0 < c ->
      appBadge_calls (updateBadge host c p) = (appBadge_calls p ++ [setAppBadge c])%list) /\
   (forall text p,
      Regex.test re_established text = false -> Regex.test re_closed text = true ->
      connectionCount p <= 1 ->
      appBadge_calls (printErr host text p) = (appBadge_calls p ++ [clearAppBadge])%list)) /\
  (has_setAppBadge host = false ->
   forall c p, appBadge_calls (updateBadge host c p) = appBadge_calls p).
Proof.
  split; [|split].
  - apply (run_invariant host (fun p => Forall positive_call (appBadge_calls p))).
    + intros p e. apply step_positive_calls.
    + rewrite page_load_appBadge_calls. constructor.
  - intros Hh. split; [|split].
    + intros c p Hc. rewrite updateBadge_eq, badge_request_cases, Hh. fields.
      unfold badge_for. destruct (Z.gtb_spec c 0); [lia | reflexivity].
    + intros c p Hc. rewrite updateBadge_eq, badge_request_cases, Hh. fields.
      unfold badge_for. destruct (Z.gtb_spec c 0); [reflexivity | lia].
    + intros text p He Hc H1.
      rewrite printErr_appBadge_calls, He, Hc, badge_request_cases, Hh.
      unfold count_after_established, badge_for. rewrite He. cbn [app].
      destruct (Z.gtb_spec (Z.max 0 (connectionCount p - 1)) 0); [lia | reflexivity].
  - intros Hh c p. rewrite updateBadge_eq, badge_request_cases, Hh. fields.
    apply app_nil_r.
Qed.

Lemma setAppBadge_only_above_zero_witness :
  appBadge_calls
    (printErr full_host "connection closed"
       (printErr full_host "new QUIC connection"
          (startServer (page_load full_host sample_markup))))
  = (appBadge_calls
       (printErr full_host "new QUIC connection"
          (startServer (page_load full_host sample_markup)))
       ++ [clearAppBadge])%list /\
  appBadge_calls (updateBadge host_without_badging 0 (document_of sample_markup))
  = appBadge_calls (document_of sample_markup).
Proof.
  split.
  - apply (proj1 (proj2 (setAppBadge_only_above_zero full_host sample_markup [])) eq_refl).
    + reflexivity.
    + reflexivity.
    + cbv. discriminate.
  - apply (proj2 (proj2 (setAppBadge_only_above_zero host_without_badging
                           sample_markup [])) eq_refl).
Defined.

Lemma step_external_badge (host : Host) (p : Page) (e : event) :
  has_setAppBadge host = true -> e <> Window_beforeunload ->
  external_badge p = badge_for (connectionCount p) ->
  external_badge (step host p e) = badge_for (connectionCount (step host p e)).
Proof.
  intros Hh Hu H. unfold step. destruct (deliverable e p); [|exact H].
  destruct e; cbn [listener browser]; try exact H.
  - unfold external_badge in *.
    rewrite printErr_appBadge_calls, printErr_connectionCount, !badge_request_cases, Hh.
    unfold count_after_line, count_after_established.
    destruct (Regex.test re_established text), (Regex.test re_closed text);
      rewrite ?app_nil_r, ?app_assoc, ?last_last; try reflexivity; exact H.
  - now elim Hu.
Qed.

(** X11.  On a host with the Badging API the external badge follows the
    counter through every run of events short of the unload: after the
    calls made so far it is set to the counter when the counter is above 0
    and is clear when the counter is 0. *)
Theorem external_badge_follows_counter (host : Host) (m : Markup) (es : list event)
  (Hh : has_setAppBadge host = true) (Hu : ~ In Window_beforeunload es) :
  external_badge (run host es (page_load host m))
  = badge_for (connectionCount (run host es (page_load host m))).
Proof.
  assert (G : forall p, external_badge p = badge_for (connectionCount p) ->
                        external_badge (run host es p)
                        = badge_for (connectionCount (run host es p))).
  { induction es as [|e es IH]; intros p Hp; [exact Hp|].
    cbn [run fold_left]. apply IH.
    - intros Hin. apply Hu. now right.
    - apply step_external_badge; [exact Hh | | exact Hp].
      intros ->. apply Hu. now left. }
  apply G. unfold external_badge.
  now rewrite page_load_appBadge_calls, page_load_connectionCount.
Qed.

Lemma external_badge_follows_counter_witness :
  external_badge
    (run full_host
       [Click_btnStart; Module_printErr "new QUIC connection";
        Module_printErr "handshake completed"; Module_printErr "draining"]
       (page_load full_host sample_markup))
  = setAppBadge 1.
Proof.
  refine (eq_trans
            (external_badge_follows_counter full_host sample_markup
               [Click_btnStart; Module_printErr "new QUIC connection";
                Module_printErr "handshake completed"; Module_printErr "draining"]
               eq_refl _) _).
  - intros [H | [H | [H | [H | []]]]]; discriminate H.
  - reflexivity.
Defined.

(** ** Further properties: connection views *)

Lemma step_views_cover_connections (host : Host) (p : Page) (e : event) :
  views_cover_connections p -> views_cover_connections (step host p e).
Proof.
  intros H. unfold step. destruct (deliverable e p); [|exact H].
  destruct e; cbn [listener browser]; try exact H.
  - destruct H as [[H0 Hle] HF]. unfold views_cover_connections.
    rewrite printErr_window_opens, printErr_connectionCount.
    unfold count_after_line, count_after_established.
    destruct (Regex.test re_established text), (Regex.test re_closed text);
      rewrite ?app_nil_r, ?length_app; cbn [length];
      (split; [lia|]); try exact HF;
      (apply Forall_app; split; [exact HF|]); constructor; try constructor;
      exists (connectionCount p + 1); (split; [lia | reflexivity]).
  - unfold beforeunload. destruct (badgingSupported host); exact H.
Qed.

Lemma page_load_window_opens (host : Host) (m : Markup) :
  window_opens (page_load host m) = [].
Proof.
  unfold page_load, checkEnvironment. destruct (has_SharedArrayBuffer host); reflexivity.
Qed.

(** X12.  After every run of events the connection counter is at most the
    number of views opened so far, and every URL passed to [window.open] is
    /quic.html?conn=n for a number n from 1 on. *)
Theorem views_cover_live_connections (host : Host) (m : Markup) (es : list event) :
  connectionCount (run host es (page_load host m))
  <= Z.of_nat (length (window_opens (run host es (page_load host m)))) /\
  Forall is_conn_url (window_opens (run host es (page_load host m))).
Proof.
  assert (V : views_cover_connections (run host es (page_load host m))).
  { apply (run_invariant host views_cover_connections).
    - intros p e. apply step_views_cover_connections.
    - unfold views_cover_connections.
      rewrite page_load_window_opens, page_load_connectionCount. cbn [length].
      split; [lia | constructor]. }
  destruct V as [[_ Hle] HF]. now split.
Qed.

(** X13.  The number a view is opened for is the counter of live
    connections, not a sequence number: when a connection line is followed
    by a closing line and another connection line, the second view is
    opened on the same URL as the first. *)
Theorem view_number_is_reused_after_close (host : Host) (t1 tc t2 : string) (p : Page)
  (H0 : 0 <= connectionCount p)
  (E1 : Regex.test re_established t1 = true) (C1 : Regex.test re_closed t1 = false)
  (Ec : Regex.test re_established tc = false) (Cc : Regex.test re_closed tc = true)
  (E2 : Regex.test re_established t2 = true) :
  window_opens (printErr host t2 (printErr host tc (printErr host t1 p)))
  = (window_opens p
       ++ [conn_url (connectionCount p + 1); conn_url (connectionCount p + 1)])%list.
Proof.
  rewrite !printErr_window_opens, !printErr_connectionCount.
  unfold count_after_line, count_after_established.
  rewrite E1, C1, Ec, Cc, E2, app_nil_r, <- app_assoc. cbn [app]. unfold conn_url.
  replace (Z.max 0 (connectionCount p + 1 - 1) + 1) with (connectionCount p + 1) by lia.
  reflexivity.
Qed.

Lemma view_number_is_reused_after_close_witness :
  window_opens
    (printErr full_host "new QUIC connection"
       (printErr full_host "connection closed"
          (printErr full_host "new QUIC connection"
             (startServer (page_load full_host sample_markup)))))
  = ["/quic.html?conn=1"; "/quic.html?conn=1"].
Proof.
  exact (view_number_is_reused_after_close full_host
           "new QUIC connection" "connection closed" "new QUIC connection"
           (startServer (page_load full_host sample_markup))
           (Z.le_refl 0) eq_refl eq_refl eq_refl eq_refl eq_refl).
Defined.

(** ** Further properties: the page badge, the overlay and the glow *)

Lemma step_page_badge_synced (host : Host) (m : Markup) (p : Page) (e : event) :
  page_badge_synced m p -> page_badge_synced m (step host p e).
Proof.
  intros H. unfold step. destruct (deliverable e p); [|exact H].
  destruct e; cbn [listener browser]; try exact H.
  - unfold page_badge_synced in *.
    destruct (printErr_fields host text p)
      as (_ & _ & Fc & _ & _ & _ & _ & _ & Fb & Fd & _).
    rewrite Fc, Fb, Fd. unfold count_after_line, count_after_established.
    destruct (Regex.test re_established text), (Regex.test re_closed text);
      cbn [orb]; try (right; split; reflexivity). exact H.
  - unfold beforeunload. destruct (badgingSupported host); exact H.
Qed.

Lemma page_load_page_badge_synced (host : Host) (m : Markup) :
  page_badge_synced m (page_load host m).
Proof.
  left. unfold page_load, checkEnvironment.
  destruct (has_SharedArrayBuffer host); repeat split.
Qed.

(** X14.  Whenever the connection counter is above 0, after any run of
    events, the badge of the page is visible and shows the counter; until
    the first connection line it is as the markup left it. *)
Theorem page_badge_shows_live_connections (host : Host) (m : Markup) (es : list event)
  (H : 0 < connectionCount (run host es (page_load host m))) :
  badgeCountEl (run host es (page_load host m))
  = String_of (connectionCount (run host es (page_load host m))) /\
  badge_visible (run host es (page_load host m)) = true.
Proof.
  assert (S : page_badge_synced m (run host es (page_load host m))).
  { apply (run_invariant host (page_badge_synced m)).
    - intros p e. apply step_page_badge_synced.
    - apply page_load_page_badge_synced. }
  destruct S as [(S0 & _) | (Sb & Sd)]; [lia|].
  split; [exact Sb|]. unfold badge_visible. rewrite Sd.
  destruct (Z.gtb_spec (connectionCount (run host es (page_load host m))) 0);
    [reflexivity | lia].
Qed.

Lemma page_badge_shows_live_connections_witness :
  badgeCountEl
    (run full_host [Click_btnStart; Module_printErr "connection established"]
       (page_load full_host sample_markup))
  = String_of
      (connectionCount
         (run full_host [Click_btnStart; Module_printErr "connection established"]
            (page_load full_host sample_markup))).
Proof.
  apply (page_badge_shows_live_connections full_host sample_markup
           [Click_btnStart; Module_printErr "connection established"]).
  reflexivity.
Defined.

Lemma step_overlay_means_loading (host : Host) (p : Page) (e : event) :
  overlay_means_loading p -> overlay_means_loading (step host p e).
Proof.
  intros H. unfold step. destruct (deliverable e p); [|exact H].
  destruct e; cbn [listener browser]; try exact H;
    try (intros D; discriminate D); try (intros _; split; reflexivity).
  - unfold overlay_means_loading in *.
    destruct (printErr_fields host text p)
      as (_ & _ & _ & Ft & Fs & _ & Fo & _).
    rewrite Ft, Fs, Fo.
    destruct (Regex.test re_fatal text), (Regex.test re_listening text); cbn [orb];
      try (intros D; discriminate D). exact H.
  - unfold beforeunload. destruct (badgingSupported host); exact H.
Qed.

(** X15.  Over a markup whose loading overlay starts hidden, the overlay
    is only ever shown under the loading status: once a line of the module,
    an abort or a failed load has changed the status, the overlay is
    hidden. *)
Theorem overlay_only_while_loading (host : Host) (m : Markup) (es : list event)
  (Hm : m_loadingOverlay_active m = false)
  (H : loadingOverlay_active (run host es (page_load host m)) = true) :
  statusTextEl (run host es (page_load host m)) = "loading..." /\
  statusEl (run host es (page_load host m)) = "status-pill status-loading".
Proof.
  revert H. apply (run_invariant host overlay_means_loading).
  - intros p e. apply step_overlay_means_loading.
  - intros D. exfalso. revert D. unfold page_load, checkEnvironment.
    destruct (has_SharedArrayBuffer host);
      (change (m_loadingOverlay_active m = true -> False); rewrite Hm; discriminate).
Qed.

Lemma overlay_only_while_loading_witness :
  statusTextEl
    (run full_host [Click_btnStart; Module_print "booting"]
       (page_load full_host sample_markup)) = "loading...".
Proof.
  apply (overlay_only_while_loading full_host sample_markup
           [Click_btnStart; Module_print "booting"]); reflexivity.
Defined.

Lemma step_glow (host : Host) (p : Page) (e : event) :
  logContainer_glow p = true -> logContainer_glow (step host p e) = true.
Proof.
  intros H. unfold step. destruct (deliverable e p); [|exact H].
  destruct e; cbn [listener browser]; try exact H.
  - destruct (printErr_fields host text p)
      as (_ & _ & _ & _ & _ & _ & _ & Fg & _).
    rewrite Fg. now destruct (Regex.test re_listening text).
  - unfold beforeunload. destruct (badgingSupported host); exact H.
Qed.

(** X16.  The glow of the log container is never taken away: once a
    listening line has set it, it stays through every run of events, a
    fatal line, an abort and a failed load included. *)
Theorem glow_is_never_removed (host : Host) (es : list event) (p : Page)
  (H : logContainer_glow p = true) :
  logContainer_glow (run host es p) = true.
Proof.
  revert H. apply (run_invariant host (fun p => logContainer_glow p = true)).
  intros q e. apply step_glow.
Qed.

Lemma glow_is_never_removed_witness :
  logContainer_glow
    (run full_host [Module_printErr "FATAL: lost socket"; Module_onAbort "unreachable"]
       (printErr full_host "Listening on port 4433"
          (startServer (page_load full_host sample_markup)))) = true.
Proof.
  apply glow_is_never_removed. reflexivity.
Defined.

(** ** Further properties: the lines of the environment checks *)

(** X17.  The lines [checkEnvironment] logs for Direct Sockets and for the
    Badging API carry the success class whether the probe succeeded or not:
    "unavailable" holds "available", which the success test of [log]
    accepts.  (The cards of the same probes carry the class warn.) *)
Theorem unavailable_is_logged_as_success (host : Host) (m : Markup)
  (H : m_log m = []) :
  nth_error (logEl (page_load host m)) 2
  = Some (mkLine "log-line log-ok"
            ("Direct Sockets: "
               ++ (if has_TCPSocket host || has_UDPSocket host
                   then "available" else "unavailable"))) /\
  nth_error (logEl (page_load host m)) 3
  = Some (mkLine "log-line log-ok"
            ("Badging API: "
               ++ (if has_setAppBadge host then "available" else "unavailable"))) /\
  nth_error (envGrid (page_load host m)) (length (m_envGrid m) + 2)
  = Some (createEnvCard "electric-plug" "Direct Sockets"
            (if has_TCPSocket host || has_UDPSocket host then "available" else "unavailable")
            (if has_TCPSocket host || has_UDPSocket host then "ok" else "warn")).
Proof.
  unfold page_load. rewrite detectCapabilities_eq.
  unfold checkEnvironment, checks, badgingSupported.
  destruct (has_SharedArrayBuffer host); cbn [negb fold_left]; fields;
    cbn [document_of logEl envGrid]; rewrite ?H; (split; [|split]).
  1, 4: destruct (has_TCPSocket host || has_UDPSocket host); reflexivity.
  1, 3: destruct (has_setAppBadge host); reflexivity.
  all: rewrite <- !app_assoc; cbn [app];
    rewrite nth_error_app2 by lia;
    (replace (length (m_envGrid m) + 2 - length (m_envGrid m))%nat with 2%nat by lia);
    reflexivity.
Qed.

Lemma unavailable_is_logged_as_success_witness :
  nth_error (logEl (page_load host_without_badging sample_markup)) 3
  = Some (mkLine "log-line log-ok" "Badging API: unavailable").
Proof.
  exact (proj1 (proj2 (unavailable_is_logged_as_success host_without_badging
                         sample_markup eq_refl))).
Defined.
